(** * Loan Approval Predictor: the prediction path of [app.py]

    A shallow embedding of the Streamlit script [app.py]: the cached model
    loader, the form widgets of the prediction page, the construction of the
    single-row input table, the scoring call, the decision threshold, the
    recommendations and the error handler, followed by the properties of
    that path.

    One execution of the script (Streamlit re-runs it on every interaction)
    is a computation in a small state-and-exception monad. The state holds
    the [st.cache_resource] entry of [load_model], which outlives a run, and
    the trace of the run: each read of the model file, each evaluation of
    [model.predict_proba] and each element shown whose content depends on
    the model or on the prediction. Layout containers and static chrome
    (page configuration, style sheet, headings, help texts, footer) leave no
    event.

    Probabilities are binary64 floats, as in Python: comparisons are the
    IEEE ones, so every comparison with NaN is false. *)

From Stdlib Require Import ZArith List String Bool Lia Floats.
Import ListNotations.

Open Scope string_scope.

(* Decimal literals are rounded to binary64 as Python rounds them. *)
Set Warnings "-inexact-float".

(** ** Python values, exceptions and results *)

(** The exception classes the script tells apart. [BaseExceptionOnly] stands
    for what [except Exception] does not catch (KeyboardInterrupt,
    SystemExit). *)
Inductive exn_class : Type :=
| FileNotFoundError
| IndexError
| AttributeError
| StreamlitAPIException
| OtherException
| BaseExceptionOnly.

(** An exception with the text [str(e)] gives. *)
Record exn : Type := Exn { class_of : exn_class; str : string }.

Inductive result (A : Type) : Type :=
| Returns (a : A)
| Raises (e : exn).
Arguments Returns {A} a.
Arguments Raises {A} e.

Definition isinstance_FileNotFoundError (e : exn) : bool :=
  match class_of e with FileNotFoundError => true | _ => false end.

Definition isinstance_Exception (e : exn) : bool :=
  match class_of e with BaseExceptionOnly => false | _ => true end.

(** A cell of the input table. [CNone] is Python's [None]. *)
Inductive cell : Type :=
| CStr (s : string)
| CInt (z : Z)
| CFloat (f : float)
| CNone.

(** [pd.DataFrame([{...}])]: a list of rows, each a dict in insertion order. *)
Definition Row : Type := list (string * cell).
Definition DataFrame : Type := list Row.

(** The object stored in [loan_pipeline.joblib]: an opaque pipeline of the
    machine-learning library, known only through [predict_proba], which
    returns one probability vector per row or raises. *)
Record Pipeline : Type :=
  { predict_proba : DataFrame -> result (list (list float)) }.

Inductive Decision : Type := Approved | NotApproved.

Definition decision_str (d : Decision) : string :=
  match d with Approved => "Approved" | NotApproved => "Not Approved" end.

Definition Decision_eqb (a b : Decision) : bool :=
  match a, b with
  | Approved, Approved | NotApproved, NotApproved => true
  | _, _ => false
  end.

(** ** Elements, events and the state of a run *)

Inductive metric_value : Type :=
| PercentOneDecimal (x : float)     (* f"{prob:.1%}" *)
| MetricText (s : string).

Inductive element : Type :=
| El_error (msg : string)                          (* st.error *)
| El_warning (title : string) (items : list string) (* st.warning *)
| El_gauge (value : float)                         (* st.plotly_chart(go.Indicator) *)
| El_h2 (css_class text : string)                  (* st.markdown('<h2 class=...>') *)
| El_metric (label : string) (value : metric_value). (* st.metric *)

Inductive event : Type :=
| Ev_joblib_load                                           (* the model file is read *)
| Ev_predict_proba (model : option Pipeline) (df : DataFrame) (* model.predict_proba(df) is evaluated *)
| Ev_element (el : element).

(** What [st.cache_resource] keeps for [load_model]: the value returned and
    the elements the body showed, which Streamlit replays on a cache hit. *)
Definition CacheEntry : Type := (option Pipeline * list element)%type.

Record State : Type := { cache : option CacheEntry; trace : list event }.

Definition M (A : Type) : Type := State -> result A * State.

Definition ret {A} (a : A) : M A := fun s => (Returns a, s).

Definition raise {A} (e : exn) : M A := fun s => (Raises e, s).

Definition bind {A B} (m : M A) (k : A -> M B) : M B :=
  fun s =>
    match m s with
    | (Returns a, s') => k a s'
    | (Raises e, s') => (Raises e, s')
    end.

Notation "x <- c1 ;; c2" := (bind c1 (fun x => c2))
  (at level 61, c1 at next level, right associativity).
Notation "c1 ;; c2" := (bind c1 (fun _ => c2))
  (at level 61, right associativity).

(** [try: body except <catches>: handler]. What the body did before it
    raised stays done. *)
Definition try_except {A} (body : M A) (catches : exn -> bool)
    (handler : exn -> M A) : M A :=
  fun s =>
    match body s with
    | (Returns a, s') => (Returns a, s')
    | (Raises e, s') => if catches e then handler e s' else (Raises e, s')
    end.

Definition lift {A} (r : result A) : M A := fun s => (r, s).

Definition emit (ev : event) : M unit :=
  fun s => (Returns tt, {| cache := cache s; trace := trace s ++ [ev] |}).

Definition show (el : element) : M unit := emit (Ev_element el).

Definition st_error (msg : string) : M unit := show (El_error msg).

Fixpoint elements_of (t : list event) : list element :=
  match t with
  | [] => []
  | Ev_element el :: t' => el :: elements_of t'
  | _ :: t' => elements_of t'
  end.

(** [@st.cache_resource] on a function without arguments: on a hit the
    stored value is returned and the stored elements are shown again, the
    body is not run; on a miss the body runs and, when it returns, its value
    and elements are stored. A body that raises stores nothing. *)
Definition cache_resource (body : M (option Pipeline)) : M (option Pipeline) :=
  fun s =>
    match cache s with
    | Some (v, els) =>
        (Returns v, {| cache := cache s; trace := trace s ++ map Ev_element els |})
    | None =>
        match body {| cache := None; trace := [] |} with
        | (Returns v, s') =>
            (Returns v, {| cache := Some (v, elements_of (trace s'));
                           trace := trace s ++ trace s' |})
        | (Raises e, s') =>
            (Raises e, {| cache := None; trace := trace s ++ trace s' |})
        end
    end.

(** ** Widgets

    The state a widget holds is an argument of the run. A select box
    returns the option at the index it holds; a number input returns the
    number it holds. The bounds of a widget are kept by the browser, not by
    the call: a number input returns the number it was sent also when it is
    below [min_value]. For a select box the lookup of an index past the last
    option raises; other versions of Streamlit return the value sent or the
    first option there. What the properties below say of the values of a
    form, they say for widget states within the bounds of their widgets. *)

Definition selectbox {A} (options : list A) (index : nat) : M A :=
  match nth_error options index with
  | Some v => ret v
  | None => raise (Exn StreamlitAPIException "Selectbox index out of range")
  end.

Definition radio {A} (options : list A) (index : nat) : M A :=
  selectbox options index.

Definition number_input (min_value : Z) (value : Z) : M Z := ret value.

Definition button (clicked : bool) : M bool := ret clicked.

Inductive Page : Type := Prediction | Documentation | About.

Record Widgets : Type :=
  { ui_page : nat;
    ui_gender : nat;
    ui_education : nat;
    ui_married : nat;
    ui_self_employed : nat;
    ui_dependents : nat;
    ui_property_area : nat;
    ui_applicant_income : Z;
    ui_coapplicant_income : Z;
    ui_loan_amount : Z;
    ui_loan_amount_term : nat;
    ui_credit_history : nat;
    ui_predict_btn : bool }.

(** ** The script *)

(** [joblib.load("loan_pipeline.joblib")]: [disk] is what reading the file
    gives at the time of the run, a pipeline or an exception
    ([FileNotFoundError] when the file is absent). *)
Definition joblib_load (disk : result Pipeline) : M Pipeline :=
  emit Ev_joblib_load ;; lift disk.

Definition model_not_found_msg : string :=
  "❌ Modèle non trouvé. Veuillez vérifier que 'loan_pipeline.joblib' existe.".

Definition load_model_body (disk : result Pipeline) : M (option Pipeline) :=
  try_except
    (p <- joblib_load disk ;; ret (Some p))
    isinstance_FileNotFoundError
    (fun _ => st_error model_not_found_msg ;; ret None).

Definition load_model (disk : result Pipeline) : M (option Pipeline) :=
  cache_resource (load_model_body disk).

(** The values the eleven form widgets returned. *)
Record Form : Type :=
  { gender : string;
    married : string;
    dependents : string;
    education : string;
    self_employed : string;
    applicant_income : Z;
    coapplicant_income : Z;
    loan_amount : Z;
    loan_amount_term : Z;
    credit_history : float;
    property_area : string }.

Definition gender_options : list string := ["Male"; "Female"].
Definition education_options : list string := ["Graduate"; "Not Graduate"].
Definition married_options : list string := ["Yes"; "No"].
Definition self_employed_options : list string := ["Yes"; "No"].
Definition dependents_options : list string := ["0"; "1"; "2"; "3+"].
Definition property_area_options : list string := ["Urban"; "Semiurban"; "Rural"].
Definition loan_amount_term_options : list Z := [360; 180; 480; 300; 240; 120; 84]%Z.
Definition credit_history_options : list float := [1.0; 0.0]%float.

(** The widgets of the prediction page, in the order the script calls them. *)
Definition form (ui : Widgets) : M Form :=
  gender <- selectbox gender_options (ui_gender ui) ;;
  education <- selectbox education_options (ui_education ui) ;;
  married <- selectbox married_options (ui_married ui) ;;
  self_employed <- selectbox self_employed_options (ui_self_employed ui) ;;
  dependents <- selectbox dependents_options (ui_dependents ui) ;;
  property_area <- selectbox property_area_options (ui_property_area ui) ;;
  applicant_income <- number_input 0 (ui_applicant_income ui) ;;
  coapplicant_income <- number_input 0 (ui_coapplicant_income ui) ;;
  loan_amount <- number_input 0 (ui_loan_amount ui) ;;
  loan_amount_term <- selectbox loan_amount_term_options (ui_loan_amount_term ui) ;;
  credit_history <- selectbox credit_history_options (ui_credit_history ui) ;;
  ret {| gender := gender; married := married; dependents := dependents;
         education := education; self_employed := self_employed;
         applicant_income := applicant_income;
         coapplicant_income := coapplicant_income;
         loan_amount := loan_amount; loan_amount_term := loan_amount_term;
         credit_history := credit_history; property_area := property_area |}.

(** [input_df = pd.DataFrame([{...}])]: no check, no failure. *)
Definition input_df (f : Form) : DataFrame :=
  [[ ("Gender", CStr (gender f));
     ("Married", CStr (married f));
     ("Dependents", CStr (dependents f));
     ("Education", CStr (education f));
     ("Self_Employed", CStr (self_employed f));
     ("ApplicantIncome", CInt (applicant_income f));
     ("CoapplicantIncome", CInt (coapplicant_income f));
     ("LoanAmount", CInt (loan_amount f));
     ("Loan_Amount_Term", CInt (loan_amount_term f));
     ("Credit_History", CFloat (credit_history f));
     ("Property_Area", CStr (property_area f)) ]].

(** [x[i]] on a sequence, for an index that is not negative. *)
Definition getitem {A} (l : list A) (i : nat) : M A :=
  match nth_error l i with
  | Some v => ret v
  | None => raise (Exn IndexError "index out of range")
  end.

(** [model.predict_proba(df)]: on [None] the attribute lookup raises. *)
Definition call_predict_proba (model : option Pipeline) (df : DataFrame)
    : M (list (list float)) :=
  emit (Ev_predict_proba model df) ;;
  match model with
  | Some p => lift (predict_proba p df)
  | None =>
      raise (Exn AttributeError
               "'NoneType' object has no attribute 'predict_proba'")
  end.

(** [decision = "Approved" if prob >= 0.5 else "Not Approved"] *)
Definition decision (p : float) : Decision :=
  if (0.5 <=? p)%float then Approved else NotApproved.

(** [prob = model.predict_proba(input_df)[0][1]] *)
Definition prob (model : option Pipeline) (df : DataFrame) : M float :=
  rows <- call_predict_proba model df ;;
  row <- getitem rows 0 ;;
  getitem row 1.

Definition recommendations_title : string :=
  "**Recommandations pour améliorer l'approbation :**".

Definition recommendations_items : list string :=
  [ "Améliorer l'historique de crédit";
    "Augmenter le revenu du demandeur/co-demandeur";
    "Réduire le montant du prêt demandé" ].

(** The items of the warning shown under
    [if decision == "Not Approved" and prob < 0.5], none when the test fails. *)
Definition recommendations (d : Decision) (p : float) : list string :=
  if Decision_eqb d NotApproved && (p <? 0.5)%float
  then recommendations_items
  else [].

Definition show_recommendations (d : Decision) (p : float) : M unit :=
  match recommendations d p with
  | [] => ret tt
  | items => show (El_warning recommendations_title items)
  end.

(** The body of the [try]. *)
Definition predict_body (model : option Pipeline) (df : DataFrame) : M unit :=
  p <- prob model df ;;
  let d := decision p in
  show (El_gauge (p * 100)%float) ;;
  (if Decision_eqb d Approved
   then show (El_h2 "approved" "✅ Prêt Approuvé")
   else show (El_h2 "rejected" "❌ Prêt Non Approuvé")) ;;
  show (El_metric "Probabilité d'approbation" (PercentOneDecimal p)) ;;
  show (El_metric "Seuil de décision" (MetricText "50%")) ;;
  show_recommendations d p.

Definition prediction_error_prefix : string := "Erreur lors de la prédiction : ".

(** [except Exception as e: st.error(f"Erreur lors de la prédiction : {str(e)}")] *)
Definition predict_handler (e : exn) : M unit :=
  st_error (prediction_error_prefix ++ str e).

Definition is_not_None {A} (o : option A) : bool :=
  match o with Some _ => true | None => false end.

(** The block under [if predict_btn and model is not None]: the input
    table is built from the form values and the [try] statement runs. *)
Definition handle_prediction (model : option Pipeline) (f : Form) : M unit :=
  try_except (predict_body model (input_df f)) isinstance_Exception
             predict_handler.

Definition page_prediction (model : option Pipeline) (ui : Widgets) : M unit :=
  f <- form ui ;;
  predict_btn <- button (ui_predict_btn ui) ;;
  if predict_btn && is_not_None model
  then handle_prediction model f
  else ret tt.

(** What follows the loading of the model: the navigation and the page it
    selects. The documentation and about pages touch neither the model nor
    the form and leave no event. The documentation page is embedded on its
    own below ([page_documentation]), with the image file it opens; an
    exception of that page is not part of the result of [pages], so the
    result of a run is that of the script on the prediction and about pages
    only. *)
Definition pages (model : option Pipeline) (ui : Widgets) : M unit :=
  page <- radio [Prediction; Documentation; About] (ui_page ui) ;;
  match page with
  | Prediction => page_prediction model ui
  | Documentation => ret tt
  | About => ret tt
  end.

(** The whole script. *)
Definition script (disk : result Pipeline) (ui : Widgets) : M unit :=
  model <- load_model disk ;;
  pages model ui.

Definition empty_state : State := {| cache := None; trace := [] |}.

(** One run of the script from the cache entry the process holds. *)
Definition run (disk : result Pipeline) (ui : Widgets) (c : option CacheEntry)
    : result unit * option CacheEntry * list event :=
  let '(r, s) := script disk ui {| cache := c; trace := [] |} in
  (r, cache s, trace s).

(** ** The data model, the outcome of scoring, sessions *)

Definition is_nan (x : float) : bool := negb (x =? x)%float.

Definition in_unit_interval (x : float) : bool :=
  (0 <=? x)%float && (x <=? 1)%float.

Definition str_in (l : list string) (c : cell) : bool :=
  match c with CStr s => existsb (String.eqb s) l | _ => false end.

Definition int_in (l : list Z) (c : cell) : bool :=
  match c with CInt z => existsb (Z.eqb z) l | _ => false end.

Definition float_in (l : list float) (c : cell) : bool :=
  match c with CFloat x => existsb (PrimFloat.eqb x) l | _ => false end.

Definition non_negative (c : cell) : bool :=
  match c with
  | CInt z => (0 <=? z)%Z
  | CFloat x => (0 <=? x)%float
  | _ => false
  end.

(** The eleven fields of an applicant record, each with its domain. No
    domain holds [CNone]. *)
Definition data_model : list (string * (cell -> bool)) :=
  [ ("Gender", str_in ["Male"; "Female"]);
    ("Married", str_in ["Yes"; "No"]);
    ("Dependents", str_in ["0"; "1"; "2"; "3+"]);
    ("Education", str_in ["Graduate"; "Not Graduate"]);
    ("Self_Employed", str_in ["Yes"; "No"]);
    ("ApplicantIncome", non_negative);
    ("CoapplicantIncome", non_negative);
    ("LoanAmount", non_negative);
    ("Loan_Amount_Term", int_in [360; 180; 480; 300; 240; 120; 84]%Z);
    ("Credit_History", float_in [1.0; 0.0]%float);
    ("Property_Area", str_in ["Urban"; "Semiurban"; "Rural"]) ].

Definition values_at (column : string) (row : Row) : list cell :=
  map snd (filter (fun kv => String.eqb (fst kv) column) row).

(** A row holds exactly the fields of the data model, in any order, each
    once and with a value of its domain. *)
Definition fully_populated (row : Row) : bool :=
  (List.length row =? List.length data_model)%nat
  && forallb (fun field : string * (cell -> bool) =>
                match values_at (fst field) row with
                | [c] => snd field c
                | _ => false
                end) data_model.

(** The form values that lie in their domains. *)
Definition Form_valid (f : Form) : bool :=
  existsb (String.eqb (gender f)) ["Male"; "Female"]
  && existsb (String.eqb (married f)) ["Yes"; "No"]
  && existsb (String.eqb (dependents f)) ["0"; "1"; "2"; "3+"]
  && existsb (String.eqb (education f)) ["Graduate"; "Not Graduate"]
  && existsb (String.eqb (self_employed f)) ["Yes"; "No"]
  && (0 <=? applicant_income f)%Z
  && (0 <=? coapplicant_income f)%Z
  && (0 <=? loan_amount f)%Z
  && existsb (Z.eqb (loan_amount_term f)) [360; 180; 480; 300; 240; 120; 84]%Z
  && existsb (PrimFloat.eqb (credit_history f)) [1.0; 0.0]%float
  && existsb (String.eqb (property_area f)) ["Urban"; "Semiurban"; "Rural"].

(** What [model.predict_proba(df)[0][1]] evaluates to on a loaded pipeline. *)
Definition score_result (p : Pipeline) (df : DataFrame) : result float :=
  match predict_proba p df with
  | Raises e => Raises e
  | Returns rows =>
      match nth_error rows 0 with
      | None => Raises (Exn IndexError "index out of range")
      | Some row =>
          match nth_error row 1 with
          | None => Raises (Exn IndexError "index out of range")
          | Some x => Returns x
          end
      end
  end.

(** Modelled from the spec: the pipeline stored in [loan_pipeline.joblib]
    is not among the sources. Its [predict_proba] returns, for each input
    row, a per-class probability vector with the positive class at a known
    index: one vector per row, an entry for each of the two classes at
    least, every entry between 0 and 1. *)
Definition proba_contract (df : DataFrame) (rows : list (list float)) : Prop :=
  List.length rows = List.length df
  /\ Forall (fun row => (2 <= List.length row)%nat
                        /\ Forall (fun x => in_unit_interval x = true) row) rows.

(** The elements a successful prediction shows, in order. *)
Definition prediction_elements (x : float) : list element :=
  [ El_gauge (x * 100)%float;
    (if Decision_eqb (decision x) Approved
     then El_h2 "approved" "✅ Prêt Approuvé"
     else El_h2 "rejected" "❌ Prêt Non Approuvé");
    El_metric "Probabilité d'approbation" (PercentOneDecimal x);
    El_metric "Seuil de décision" (MetricText "50%") ]
  ++ match recommendations (decision x) x with
     | [] => []
     | items => [El_warning recommendations_title items]
     end.

(** The message the handler of the prediction shows for an exception. *)
Definition prediction_error (e : exn) : element :=
  El_error (prediction_error_prefix ++ str e).

(** What the pages can add to the trace of a run, given the handle the
    loader returned and the widgets: nothing; one scoring call, on the table
    of the form the widgets returned, and the elements of its result; or
    one such call that failed and, when the handler catches the exception,
    its message. *)
Inductive pages_tail (model : option Pipeline) (ui : Widgets)
    : list event -> Prop :=
| tail_nothing : pages_tail model ui []
| tail_scored (p : Pipeline) (f : Form) (x : float) :
    model = Some p -> fst (form ui empty_state) = Returns f ->
    score_result p (input_df f) = Returns x ->
    pages_tail model ui
      (Ev_predict_proba (Some p) (input_df f)
         :: map Ev_element (prediction_elements x))
| tail_failed (p : Pipeline) (f : Form) (e : exn) :
    model = Some p -> fst (form ui empty_state) = Returns f ->
    score_result p (input_df f) = Raises e ->
    pages_tail model ui
      (Ev_predict_proba (Some p) (input_df f)
         :: (if isinstance_Exception e
             then [Ev_element (prediction_error e)] else [])).

(** A computation that only appends to the trace, the same events and the
    same result from every state, and leaves the cache entry alone. *)
Definition framed {A} (m : M A) : Prop :=
  forall s,
    m s = (fst (m empty_state),
           {| cache := cache s;
              trace := trace s ++ trace (snd (m empty_state)) |}).

(** The elements that present a prediction: gauge, verdict, metrics and
    recommendations. *)
Definition is_result_element (el : element) : bool :=
  match el with
  | El_error _ => false
  | _ => true
  end.

Definition is_scoring_call (ev : event) : bool :=
  match ev with Ev_predict_proba _ _ => true | _ => false end.

Definition is_file_read (ev : event) : bool :=
  match ev with Ev_joblib_load => true | _ => false end.

(** The runs of one process, in order: each has the file system and the
    widget state of its time; the cache entry is handed from run to run. *)
Fixpoint session (runs : list (result Pipeline * Widgets))
    (c : option CacheEntry) : list (result unit * list event) * option CacheEntry :=
  match runs with
  | [] => ([], c)
  | (disk, ui) :: rest =>
      let '(r, c1, tr) := run disk ui c in
      let '(outs, c2) := session rest c1 in
      ((r, tr) :: outs, c2)
  end.

(** The cache entries a process can hold: none yet, a loaded pipeline that
    showed nothing, or the failure with its notice. *)
Definition cache_wf (c : option CacheEntry) : Prop :=
  match c with
  | None => True
  | Some (Some _, els) => els = []
  | Some (None, els) => els = [El_error model_not_found_msg]
  end.

(** [sub in s] on strings. *)
Definition includes (sub s : string) : bool :=
  match index 0 sub s with Some _ => true | None => false end.

(** The elements of a trace that present a prediction. *)
Definition results_shown (tr : list event) : list element :=
  filter is_result_element (elements_of tr).

(** Widget states within the bounds of their widgets. *)
Definition widgets_in_range (ui : Widgets) : bool :=
  (ui_page ui <? 3)%nat
  && (ui_gender ui <? 2)%nat
  && (ui_education ui <? 2)%nat
  && (ui_married ui <? 2)%nat
  && (ui_self_employed ui <? 2)%nat
  && (ui_dependents ui <? 4)%nat
  && (ui_property_area ui <? 3)%nat
  && (0 <=? ui_applicant_income ui)%Z
  && (0 <=? ui_coapplicant_income ui)%Z
  && (0 <=? ui_loan_amount ui)%Z
  && (ui_loan_amount_term ui <? 7)%nat
  && (ui_credit_history ui <? 2)%nat.

(** ** Fixtures *)

(** The widgets as the page first shows them, with the button pressed or not. *)
Definition default_widgets (pressed : bool) : Widgets :=
  {| ui_page := 0; ui_gender := 0; ui_education := 0; ui_married := 0;
     ui_self_employed := 0; ui_dependents := 0; ui_property_area := 0;
     ui_applicant_income := 5000; ui_coapplicant_income := 0;
     ui_loan_amount := 100; ui_loan_amount_term := 0;
     ui_credit_history := 0; ui_predict_btn := pressed |}.

Definition default_form : Form :=
  {| gender := "Male"; married := "Yes"; dependents := "0";
     education := "Graduate"; self_employed := "Yes";
     applicant_income := 5000; coapplicant_income := 0; loan_amount := 100;
     loan_amount_term := 360; credit_history := 1.0%float;
     property_area := "Urban" |}.

(** The default form with an income below zero, and with a gender outside
    the two the data model lists. *)
Definition negative_income_form : Form :=
  {| gender := "Male"; married := "Yes"; dependents := "0";
     education := "Graduate"; self_employed := "Yes";
     applicant_income := -1; coapplicant_income := 0; loan_amount := 100;
     loan_amount_term := 360; credit_history := 1.0%float;
     property_area := "Urban" |}.

(** The default widgets, button pressed, with an income of -1 as the state
    of the first number input. *)
Definition negative_income_widgets : Widgets :=
  {| ui_page := 0; ui_gender := 0; ui_education := 0; ui_married := 0;
     ui_self_employed := 0; ui_dependents := 0; ui_property_area := 0;
     ui_applicant_income := -1; ui_coapplicant_income := 0;
     ui_loan_amount := 100; ui_loan_amount_term := 0;
     ui_credit_history := 0; ui_predict_btn := true |}.

Definition other_gender_form : Form :=
  {| gender := "Other"; married := "Yes"; dependents := "0";
     education := "Graduate"; self_employed := "Yes";
     applicant_income := 5000; coapplicant_income := 0; loan_amount := 100;
     loan_amount_term := 360; credit_history := 1.0%float;
     property_area := "Urban" |}.

(** A pipeline that answers 0.82 for the positive class on every table. *)
Definition fixture_pipeline : Pipeline :=
  {| predict_proba := fun _ => Returns [[0.18; 0.82]%float] |}.

(** A pipeline whose inference raises on every table. *)
Definition failing_pipeline : Pipeline :=
  {| predict_proba := fun _ =>
       Raises (Exn OtherException "could not convert string to float: 'abc'") |}.

(** A pipeline that raises on a table whose first cell is not the gender
    Male, and answers 0.82 otherwise. *)
Definition picky_pipeline : Pipeline :=
  {| predict_proba := fun df =>
       match df with
       | (("Gender", CStr "Male") :: _) :: _ => Returns [[0.18; 0.82]%float]
       | _ => Raises (Exn OtherException "Found unknown categories")
       end |}.

(** A pipeline that answers 0.2 for the positive class on every table. *)
Definition low_pipeline : Pipeline :=
  {| predict_proba := fun _ => Returns [[0.8; 0.2]%float] |}.

Definition file_absent : result Pipeline :=
  Raises (Exn FileNotFoundError
            "[Errno 2] No such file or directory: 'loan_pipeline.joblib'").

(** ** The form the widgets select, the dict literal *)

(** The form read off the widget states: each select box gives the option at
    its index, each number input its number. *)
Definition selected_form (ui : Widgets) : Form :=
  {| gender := nth (ui_gender ui) gender_options "";
     married := nth (ui_married ui) married_options "";
     dependents := nth (ui_dependents ui) dependents_options "";
     education := nth (ui_education ui) education_options "";
     self_employed := nth (ui_self_employed ui) self_employed_options "";
     applicant_income := ui_applicant_income ui;
     coapplicant_income := ui_coapplicant_income ui;
     loan_amount := ui_loan_amount ui;
     loan_amount_term := nth (ui_loan_amount_term ui) loan_amount_term_options 0%Z;
     credit_history := nth (ui_credit_history ui) credit_history_options 0%float;
     property_area := nth (ui_property_area ui) property_area_options "" |}.

(** [d[k] = v] on a dict kept in insertion order: a key already there keeps
    its place and takes the new value. *)
Fixpoint dict_set (k : string) (v : cell) (d : Row) : Row :=
  match d with
  | [] => [(k, v)]
  | (k', v') :: d' =>
      if String.eqb k' k then (k', v) :: d' else (k', v') :: dict_set k v d'
  end.

(** A dict literal [{k1: v1, k2: v2, ...}]: the items are set from left to
    right, so a key written twice keeps the last value only. *)
Definition dict_literal (items : list (string * cell)) : Row :=
  fold_left (fun d kv => dict_set (fst kv) (snd kv) d) items [].

(** [d[k]]: the value under a key, [KeyError] when the key is missing. *)
Fixpoint dict_get (k : string) (d : Row) : result cell :=
  match d with
  | [] => Raises (Exn OtherException k)
  | (k', v) :: d' => if String.eqb k' k then Returns v else dict_get k d'
  end.

(** The count of the events of a trace that satisfy a test. *)
Definition count_events (test : event -> bool) (tr : list event) : nat :=
  List.length (filter test tr).

(** ** The documentation page *)

(** [variables_data], a dict of four columns. *)
Definition variables_data : list (string * list string) :=
  [ ("Variable",
     [ "Gender"; "Married"; "Dependents"; "Education"; "Self_Employed";
       "ApplicantIncome"; "CoapplicantIncome"; "LoanAmount";
       "Loan_Amount_Term"; "Credit_History"; "Property_Area" ]);
    ("Type",
     [ "Catégorielle"; "Catégorielle"; "Catégorielle"; "Catégorielle";
       "Catégorielle"; "Numérique"; "Numérique"; "Numérique"; "Numérique";
       "Binaire"; "Catégorielle" ]);
    ("Description",
     [ "Genre du demandeur";
       "Statut marital";
       "Nombre de personnes à charge";
       "Niveau d'éducation";
       "Statut d'indépendant";
       "Revenu mensuel du demandeur";
       "Revenu mensuel du co-demandeur";
       "Montant du prêt demandé (en milliers)";
       "Durée du prêt en jours";
       "Historique de crédit (1=bon, 0=faible)";
       "Zone géographique de la propriété" ]);
    ("Impact",
     [ "Faible"; "Moyen"; "Moyen"; "Moyen"; "Moyen";
       "Élevé"; "Élevé"; "Élevé"; "Moyen"; "Très élevé"; "Moyen" ]) ].

(** A table of text, row by row, each row keyed by the column names. *)
Definition TextTable : Type := list (list (string * string)).

(** [pd.DataFrame(data)] on a dict of lists: the columns must have one
    length, else [ValueError]; row [i] holds entry [i] of each column. *)
Definition DataFrame_of_columns (data : list (string * list string))
    : result TextTable :=
  match data with
  | [] => Returns []
  | (_, first) :: _ =>
      if forallb (fun col => (List.length (snd col) =? List.length first)%nat) data
      then Returns
             (map (fun i => map (fun col => (fst col, nth i (snd col) "")) data)
                  (seq 0 (List.length first)))
      else Raises (Exn OtherException "All arrays must be of the same length")
  end.

(** The entry of a row of a text table under a column, empty when missing. *)
Definition text_at (column : string) (row : list (string * string)) : string :=
  match find (fun kv => String.eqb (fst kv) column) row with
  | Some kv => snd kv
  | None => ""
  end.

Definition features : list string :=
  [ "Credit_History"; "ApplicantIncome"; "LoanAmount"; "CoapplicantIncome";
    "Property_Area"; "Loan_Amount_Term"; "Education"; "Married" ].

Definition importance : list float :=
  [0.35; 0.18; 0.15; 0.12; 0.08; 0.06; 0.04; 0.02]%float.

(** [px.bar(x=..., y=...)]: one bar per pair; the two lists must have one
    length, else [ValueError]. *)
Definition px_bar (x : list float) (y : list string)
    : result (list (float * string)) :=
  if (List.length x =? List.length y)%nat
  then Returns (combine x y)
  else Raises (Exn OtherException "All arguments should have the same length")%string.






(** The rank of a documented impact, from weak to very strong. *)
Definition impact_rank (impact : string) : nat :=
  if String.eqb impact "Faible" then 1
  else if String.eqb impact "Moyen" then 2
  else if String.eqb impact "Élevé" then 3
  else if String.eqb impact "Très élevé" then 4
  else 0.

Definition is_categorical_cell (c : cell) : bool :=
  match c with CStr _ => true | _ => false end.

Definition is_numeric_cell (c : cell) : bool :=
  match c with CInt _ | CFloat _ => true | _ => false end.

(** The documented type of a variable against the cell submitted for it:
    a categorical variable goes as a string, any other as a number. *)
Definition type_agrees (doc : list (string * string)) (c : cell) : bool :=
  if String.eqb (text_at "Type" doc) "Catégorielle"
  then is_categorical_cell c
  else is_numeric_cell c.

(** The impact the table documents for a variable, empty when the table
    does not list it. *)
Definition documented_impact (table : TextTable) (variable : string) : string :=
  match find (fun doc => String.eqb (text_at "Variable" doc) variable) table with
  | Some doc => text_at "Impact" doc
  | None => ""
  end.

(** What a session from the empty cache leaves in the cache, read off the
    file systems of its runs: the outcome of the first read that either
    returned a pipeline or found no file. *)
Fixpoint first_conclusive_read (runs : list (result Pipeline * Widgets))
    : option CacheEntry :=
  match runs with
  | [] => None
  | (Returns p, _) :: _ => Some (Some p, [])
  | (Raises e, _) :: rest =>
      if isinstance_FileNotFoundError e
      then Some (None, [El_error model_not_found_msg])
      else first_conclusive_read rest
  end.

(** ** More fixtures *)

(** A pipeline interrupted during inference. *)
Definition interrupted_pipeline : Pipeline :=
  {| predict_proba := fun _ => Raises (Exn BaseExceptionOnly "KeyboardInterrupt") |}.

(** A pipeline fitted on one class: one entry per row. *)
Definition single_class_pipeline : Pipeline :=
  {| predict_proba := fun _ => Returns [[1.0]%float] |}.

(** A pipeline that answers NaN. *)
Definition nan_pipeline : Pipeline :=
  {| predict_proba := fun _ => Returns [[nan; nan]] |}.

(** A model file that is there and cannot be unpickled. *)
Definition file_corrupt : result Pipeline :=
  Raises (Exn OtherException "invalid load key").

(** * Properties *)

(** Splits a conjunction into its parts, without introducing anything. *)
Ltac splits := repeat match goal with |- _ /\ _ => split end.

(** ** Binary64 comparisons

    [prob >= 0.5] is [0.5 <=? prob] and [prob < 0.5] is [prob <? 0.5]. The
    facts below follow from the specification of the primitive comparisons
    over [spec_float]. *)


Lemma SFleb_trans (x y z : spec_float) :
  SFleb x y = true -> SFleb y z = true -> SFleb x z = true.
Proof.
  unfold SFleb.
  destruct x as [sx|sx| |sx mx ex], y as [sy|sy| |sy my ey],
           z as [sz|sz| |sz mz ez]; simpl;
    try discriminate; try reflexivity;
    try (destruct sx; simpl; (discriminate || reflexivity));
    try (destruct sy; simpl; (discriminate || reflexivity));
    try (destruct sz; simpl; (discriminate || reflexivity));
    try (destruct sx, sy; simpl; (discriminate || reflexivity));
    try (destruct sy, sz; simpl; (discriminate || reflexivity));
    try (destruct sx, sz; simpl; (discriminate || reflexivity));
    try (destruct sx, sy, sz; simpl; (discriminate || reflexivity)).
  change (Pos.compare_cont Eq mx my) with (mx ?= my)%positive.
  change (Pos.compare_cont Eq my mz) with (my ?= mz)%positive.
  change (Pos.compare_cont Eq mx mz) with (mx ?= mz)%positive.
  destruct sx, sy, sz; simpl; try discriminate; try reflexivity;
    destruct (Z.compare_spec ex ey), (Z.compare_spec ey ez),
             (Z.compare_spec ex ez);
    simpl; try discriminate; try reflexivity; try lia;
    destruct (Pos.compare_spec mx my), (Pos.compare_spec my mz),
             (Pos.compare_spec mx mz);
    simpl; try discriminate; try reflexivity; lia.
Qed.

Lemma f64_leb_trans (x y z : float) :
  (x <=? y)%float = true -> (y <=? z)%float = true -> (x <=? z)%float = true.
Proof. rewrite !leb_spec. apply SFleb_trans. Qed.


(** ** The steps of a run *)

Lemma selectbox_run {A} (options : list A) (i : nat) (s : State) :
  selectbox options i s =
  (match nth_error options i with
   | Some v => Returns v
   | None => Raises (Exn StreamlitAPIException "Selectbox index out of range")
   end, s).
Proof. unfold selectbox. destruct (nth_error options i); reflexivity. Qed.

Lemma number_input_run (min_value v : Z) (s : State) :
  number_input min_value v s = (Returns v, s).
Proof. reflexivity. Qed.

Ltac widget_raises := eexists; reflexivity.

Ltac widget_step :=
  match goal with
  | |- context [selectbox ?o ?i ?s] =>
      rewrite (selectbox_run o i s); destruct (nth_error o i) eqn:?;
      cbv beta iota; [ | widget_raises ]
  | |- context [number_input ?m ?v ?s] =>
      rewrite (number_input_run m v s); cbv beta iota
  end.

(** The widgets leave the state alone. *)
Lemma form_run (ui : Widgets) (s : State) :
  exists r, form ui s = (r, s).
Proof.
  unfold form, bind.
  repeat widget_step.
  eexists; reflexivity.
Qed.

(** *** Computations that only append to the trace *)

Lemma framed_ret {A} (a : A) : framed (ret a).
Proof. intros [c t]. unfold ret; simpl. now rewrite app_nil_r. Qed.

Lemma framed_raise {A} (e : exn) : framed (@raise A e).
Proof. intros [c t]. unfold raise; simpl. now rewrite app_nil_r. Qed.

Lemma framed_lift {A} (r : result A) : framed (lift r).
Proof. intros [c t]. unfold lift; simpl. now rewrite app_nil_r. Qed.

Lemma framed_emit (ev : event) : framed (emit ev).
Proof. intros [c t]. reflexivity. Qed.

Lemma framed_bind {A B} (m : M A) (k : A -> M B) :
  framed m -> (forall a, framed (k a)) -> framed (bind m k).
Proof.
  intros Hm Hk s. unfold bind.
  rewrite (Hm s). destruct (m empty_state) as [[a|e] s0]; simpl.
  - rewrite (Hk a s0), (Hk a). simpl. now rewrite app_assoc.
  - reflexivity.
Qed.

Lemma framed_try_except {A} (body : M A) (catches : exn -> bool)
    (handler : exn -> M A) :
  framed body -> (forall e, framed (handler e)) ->
  framed (try_except body catches handler).
Proof.
  intros Hb Hh s. unfold try_except.
  rewrite (Hb s). destruct (body empty_state) as [[a|e] s0]; simpl.
  - reflexivity.
  - destruct (catches e).
    + rewrite (Hh e s0), (Hh e). simpl. now rewrite app_assoc.
    + reflexivity.
Qed.

Lemma framed_selectbox {A} (options : list A) (i : nat) :
  framed (selectbox options i).
Proof.
  unfold selectbox. destruct (nth_error options i);
    [apply framed_ret | apply framed_raise].
Qed.

Lemma framed_number_input (min_value v : Z) : framed (number_input min_value v).
Proof. unfold number_input. apply framed_ret. Qed.

Lemma framed_getitem {A} (l : list A) (i : nat) : framed (getitem l i).
Proof.
  unfold getitem. destruct (nth_error l i);
    [apply framed_ret | apply framed_raise].
Qed.

Create HintDb framed.
#[local] Hint Resolve framed_ret framed_raise framed_lift framed_emit
  framed_selectbox framed_number_input framed_getitem : framed.

Ltac framed_steps :=
  repeat first
    [ apply framed_bind; [ | intros ? ]
    | apply framed_try_except; [ | intros ? ]
    | solve [auto with framed] ].

Lemma framed_form (ui : Widgets) : framed (form ui).
Proof. unfold form. framed_steps. Qed.

Lemma framed_prob (model : option Pipeline) (df : DataFrame) :
  framed (prob model df).
Proof.
  unfold prob, call_predict_proba. framed_steps.
  destruct model; auto with framed.
Qed.

Lemma framed_predict_body (model : option Pipeline) (df : DataFrame) :
  framed (predict_body model df).
Proof.
  unfold predict_body, show_recommendations, show.
  apply framed_bind; [apply framed_prob | intros x].
  framed_steps.
  - destruct (Decision_eqb (decision x) Approved); auto with framed.
  - destruct (recommendations (decision x) x); auto with framed.
Qed.

Lemma framed_page_prediction (model : option Pipeline) (ui : Widgets) :
  framed (page_prediction model ui).
Proof.
  unfold page_prediction, button.
  apply framed_bind; [apply framed_form | intros f].
  apply framed_bind; [apply framed_ret | intros b].
  destruct (b && is_not_None model).
  - unfold handle_prediction. apply framed_try_except; [apply framed_predict_body | intros e].
    apply framed_emit.
  - apply framed_ret.
Qed.

Lemma framed_pages (model : option Pipeline) (ui : Widgets) :
  framed (pages model ui).
Proof.
  unfold pages, radio.
  apply framed_bind; [apply framed_selectbox | intros [ | | ]].
  - apply framed_page_prediction.
  - apply framed_ret.
  - apply framed_ret.
Qed.

(** *** Scoring and the handler *)

Lemma prob_run (p : Pipeline) (df : DataFrame) (s : State) :
  prob (Some p) df s =
  (score_result p df,
   {| cache := cache s; trace := trace s ++ [Ev_predict_proba (Some p) df] |}).
Proof.
  unfold prob, call_predict_proba, score_result, bind, emit, lift, getitem.
  simpl. destruct (predict_proba p df) as [rows|e]; [ | reflexivity].
  destruct rows as [|row rows]; [reflexivity | ]. simpl.
  destruct row as [|x0 [|x1 row]]; reflexivity.
Qed.

Lemma prob_None_run (df : DataFrame) (s : State) :
  prob None df s =
  (Raises (Exn AttributeError
             "'NoneType' object has no attribute 'predict_proba'"),
   {| cache := cache s; trace := trace s ++ [Ev_predict_proba None df] |}).
Proof. reflexivity. Qed.

Lemma predict_body_shows (p : Pipeline) (df : DataFrame) (x : float) (s : State) :
  score_result p df = Returns x ->
  predict_body (Some p) df s =
  (Returns tt,
   {| cache := cache s;
      trace := trace s ++ Ev_predict_proba (Some p) df
                            :: map Ev_element (prediction_elements x) |}).
Proof.
  intros Hx. unfold predict_body, bind at 1. rewrite prob_run, Hx.
  unfold prediction_elements, show_recommendations, show, bind, emit, ret.
  cbn [cache trace].
  destruct (Decision_eqb (decision x) Approved);
    destruct (recommendations (decision x) x);
    cbn [cache trace]; rewrite <- ?app_assoc; reflexivity.
Qed.

(** The handler as a whole, on a loaded handle. *)
Lemma handle_prediction_run (p : Pipeline) (f : Form) (s : State) :
  let df := input_df f in
  handle_prediction (Some p) f s =
  match score_result p df with
  | Returns x =>
      (Returns tt,
       {| cache := cache s;
          trace := trace s ++ Ev_predict_proba (Some p) df
                                :: map Ev_element (prediction_elements x) |})
  | Raises e =>
      if isinstance_Exception e
      then (Returns tt,
            {| cache := cache s;
               trace := trace s ++ [Ev_predict_proba (Some p) df;
                                    Ev_element (prediction_error e)] |})
      else (Raises e,
            {| cache := cache s;
               trace := trace s ++ [Ev_predict_proba (Some p) df] |})
  end.
Proof.
  intros df. unfold handle_prediction, try_except. fold df.
  destruct (score_result p df) as [x|e] eqn:Hx.
  - now rewrite (predict_body_shows p df x s Hx).
  - unfold predict_body, bind at 1. rewrite prob_run, Hx.
    destruct (isinstance_Exception e); [ | reflexivity].
    unfold predict_handler, st_error, show, emit, prediction_error.
    cbn [cache trace]. now rewrite <- app_assoc.
Qed.

(** *** The pages *)

Lemma pages_adds (model : option Pipeline) (ui : Widgets) :
  pages_tail model ui (trace (snd (pages model ui empty_state))).
Proof.
  unfold pages, radio, bind at 1. rewrite selectbox_run.
  destruct (nth_error [Prediction; Documentation; About] (ui_page ui))
    as [[ | | ]|]; try apply tail_nothing.
  unfold page_prediction, bind at 1.
  destruct (form_run ui empty_state) as (r & Hform).
  assert (Hr : fst (form ui empty_state) = r) by now rewrite Hform.
  rewrite Hform.
  destruct r as [f|e]; [ | apply tail_nothing].
  unfold button, bind, ret.
  destruct (ui_predict_btn ui); [ | apply tail_nothing].
  destruct model as [p|]; [ | apply tail_nothing]. cbn [andb is_not_None].
  rewrite handle_prediction_run. cbv zeta.
  destruct (score_result p (input_df f)) as [x|e] eqn:Hx.
  - apply (tail_scored (Some p) ui p f x eq_refl Hr Hx).
  - generalize (tail_failed (Some p) ui p f e eq_refl Hr Hx).
    destruct (isinstance_Exception e); trivial.
Qed.

(** *** The cached loader *)

Lemma load_model_hit (disk : result Pipeline) (v : option Pipeline)
    (els : list element) (t : list event) :
  load_model disk {| cache := Some (v, els); trace := t |} =
  (Returns v, {| cache := Some (v, els); trace := t ++ map Ev_element els |}).
Proof. reflexivity. Qed.

Lemma load_model_miss (disk : result Pipeline) (t : list event) :
  load_model disk {| cache := None; trace := t |} =
  match disk with
  | Returns p =>
      (Returns (Some p),
       {| cache := Some (Some p, []); trace := t ++ [Ev_joblib_load] |})
  | Raises e =>
      if isinstance_FileNotFoundError e
      then (Returns None,
            {| cache := Some (None, [El_error model_not_found_msg]);
               trace := t ++ [Ev_joblib_load;
                              Ev_element (El_error model_not_found_msg)] |})
      else (Raises e, {| cache := None; trace := t ++ [Ev_joblib_load] |})
  end.
Proof.
  unfold load_model, cache_resource, load_model_body, try_except, bind,
    joblib_load, emit, lift, bind. cbn [cache trace].
  destruct disk as [p|e]; [reflexivity | ].
  destruct (isinstance_FileNotFoundError e); reflexivity.
Qed.

(** *** A whole run *)

(** A run is the loader followed by the pages on the handle it returned. *)
Lemma run_eq (disk : result Pipeline) (ui : Widgets) (c : option CacheEntry) :
  run disk ui c =
  match load_model disk {| cache := c; trace := [] |} with
  | (Returns model, s1) =>
      (fst (pages model ui empty_state), cache s1,
       (trace s1 ++ trace (snd (pages model ui empty_state)))%list)
  | (Raises e, s1) => (Raises e, cache s1, trace s1)
  end.
Proof.
  unfold run, script, bind.
  destruct (load_model disk {| cache := c; trace := [] |}) as [[model|e] s1];
    [ | reflexivity].
  now rewrite (framed_pages model ui s1).
Qed.

(** A run from an entry that holds a value reads nothing and keeps the entry. *)
Lemma run_cached (disk : result Pipeline) (ui : Widgets)
    (v : option Pipeline) (els : list element) :
  run disk ui (Some (v, els)) =
  (fst (pages v ui empty_state), Some (v, els),
   (map Ev_element els ++ trace (snd (pages v ui empty_state)))%list).
Proof. rewrite run_eq, load_model_hit. reflexivity. Qed.

(** Without a handle the pages add nothing. *)
Lemma pages_None_adds_nothing (ui : Widgets) :
  trace (snd (pages None ui empty_state)) = [].
Proof.
  generalize (pages_adds None ui).
  destruct (trace (snd (pages None ui empty_state))); [reflexivity | ].
  intros H. inversion H; discriminate.
Qed.

Lemma cache_wf_run (disk : result Pipeline) (ui : Widgets)
    (c : option CacheEntry) :
  cache_wf c -> cache_wf (snd (fst (run disk ui c))).
Proof.
  destruct c as [[v els]|]; intros Hc.
  - now rewrite run_cached.
  - rewrite run_eq, load_model_miss.
    destruct disk as [p|e]; [reflexivity | ].
    destruct (isinstance_FileNotFoundError e); reflexivity.
Qed.

Lemma cache_wf_session (runs : list (result Pipeline * Widgets))
    (c : option CacheEntry) :
  cache_wf c -> cache_wf (snd (session runs c)).
Proof.
  revert c. induction runs as [|[disk ui] rest IH]; intros c Hc; [exact Hc | ].
  simpl. pose proof (cache_wf_run disk ui c Hc) as H1.
  destruct (run disk ui c) as [[r c1] tr]. simpl in H1.
  specialize (IH c1 H1). destruct (session rest c1) as [outs c2]. exact IH.
Qed.

(** ** The decision threshold *)

(** C1. The decision is Approved exactly when [p >= 0.5] and Not Approved
    otherwise (NaN included); it is exact at 0.5, 0.499999, 1.0 and 0.0;
    and it is monotone: above an approved probability every probability is
    approved. *)
Theorem decision_threshold_exact_and_monotone :
  (forall p, decision p = Approved <-> (0.5 <=? p)%float = true)
  /\ (forall p, decision p = NotApproved <-> (0.5 <=? p)%float = false)
  /\ decision 0.5 = Approved
  /\ decision 0.499999 = NotApproved
  /\ decision 1.0 = Approved
  /\ decision 0.0 = NotApproved
  /\ (forall p1 p2, (p1 <=? p2)%float = true ->
                    decision p1 = Approved -> decision p2 = Approved).
Proof.
  split; [ | split; [ | repeat (split; [reflexivity | ]) ]].
  - intros p. unfold decision.
    destruct (0.5 <=? p)%float; split; (reflexivity || discriminate).
  - intros p. unfold decision.
    destruct (0.5 <=? p)%float; split; (reflexivity || discriminate).
  - intros p1 p2 H12. unfold decision.
    destruct (0.5 <=? p1)%float eqn:H1; [ | discriminate].
    intros _. now rewrite (f64_leb_trans _ _ _ H1 H12).
Qed.

(** ** Two whole runs

    The default form with the button pressed, on a pipeline that answers
    0.82 and on one that answers 0.2. *)

Example run_approved :
  run (Returns fixture_pipeline) (default_widgets true) None
  = (Returns tt, Some (Some fixture_pipeline, []),
     [ Ev_joblib_load;
       Ev_predict_proba (Some fixture_pipeline) (input_df default_form);
       Ev_element (El_gauge (0.82 * 100)%float);
       Ev_element (El_h2 "approved" "✅ Prêt Approuvé");
       Ev_element (El_metric "Probabilité d'approbation" (PercentOneDecimal 0.82));
       Ev_element (El_metric "Seuil de décision" (MetricText "50%")) ]).
Proof. reflexivity. Qed.

Example run_not_approved :
  run (Returns low_pipeline) (default_widgets true) None
  = (Returns tt, Some (Some low_pipeline, []),
     [ Ev_joblib_load;
       Ev_predict_proba (Some low_pipeline) (input_df default_form);
       Ev_element (El_gauge (0.2 * 100)%float);
       Ev_element (El_h2 "rejected" "❌ Prêt Non Approuvé");
       Ev_element (El_metric "Probabilité d'approbation" (PercentOneDecimal 0.2));
       Ev_element (El_metric "Seuil de décision" (MetricText "50%"));
       Ev_element
         (El_warning "**Recommandations pour améliorer l'approbation :**"
            [ "Améliorer l'historique de crédit";
              "Augmenter le revenu du demandeur/co-demandeur";
              "Réduire le montant du prêt demandé" ]) ]).
Proof. reflexivity. Qed.

(** ** Recommendations *)

(** The test of the warning names the probability a second time. A pair
    the script does not form, Not Approved with 0.7, gets no recommendation,
    and neither does a score that is not a number. *)
Example recommendations_empty_for_not_approved :
  recommendations NotApproved 0.7 = []
  /\ decision nan = NotApproved
  /\ recommendations (decision nan) nan = [].
Proof. repeat split; reflexivity. Qed.




(** ** Record construction *)

Lemma input_df_fully_populated (f : Form) :
  Form_valid f = true ->
  exists row,
    input_df f = [row]
    /\ fully_populated row = true
    /\ map fst row = map fst data_model
    /\ Forall (fun kv => snd kv <> CNone) row.
Proof.
  intros Hf. eexists. split; [reflexivity | ].
  split; [ | split; [reflexivity | repeat constructor; discriminate]].
  unfold Form_valid in Hf.
  repeat match type of Hf with
         | (_ && _)%bool = true =>
             let H := fresh "H" in
             apply andb_prop in Hf; destruct Hf as [Hf H]
         end.
  unfold fully_populated, data_model, values_at, str_in, int_in, float_in,
    non_negative.
  cbn [List.length Nat.eqb forallb filter map fst snd String.eqb Ascii.eqb
       Bool.eqb andb].
  now repeat match goal with H : _ = true |- _ => rewrite H; clear H end.
Qed.

(** C2, as stated, fails: the handler builds the table from whatever the
    form holds and submits it. With an income of -1, or with the gender
    Other, the pipeline is called on the record and its result is shown;
    nothing is rejected. *)
Lemma invalid_forms_are_built_and_scored :
  Form_valid negative_income_form = false
  /\ In ("ApplicantIncome", CInt (-1)) (hd [] (input_df negative_income_form))
  /\ handle_prediction (Some fixture_pipeline) negative_income_form empty_state
     = (Returns tt,
        {| cache := None;
           trace := Ev_predict_proba (Some fixture_pipeline)
                      (input_df negative_income_form)
                    :: map Ev_element (prediction_elements 0.82) |})
  /\ Form_valid other_gender_form = false
  /\ In ("Gender", CStr "Other") (hd [] (input_df other_gender_form))
  /\ handle_prediction (Some fixture_pipeline) other_gender_form empty_state
     = (Returns tt,
        {| cache := None;
           trace := Ev_predict_proba (Some fixture_pipeline)
                      (input_df other_gender_form)
                    :: map Ev_element (prediction_elements 0.82) |}).
Proof.
  repeat split; try reflexivity.
  - simpl. auto 10.
  - simpl. auto.
Qed.

(** C2, amended. Record construction checks nothing and cannot fail: for
    every form, in its domains or not, the handler builds the one-row table
    that holds the eleven values as they are and calls the pipeline on it. *)
Theorem record_construction_is_unchecked :
  (forall f, exists row,
      input_df f = [row]
      /\ map snd row =
           [ CStr (gender f); CStr (married f); CStr (dependents f);
             CStr (education f); CStr (self_employed f);
             CInt (applicant_income f); CInt (coapplicant_income f);
             CInt (loan_amount f); CInt (loan_amount_term f);
             CFloat (credit_history f); CStr (property_area f) ]
      /\ map fst row = map fst data_model)
  /\ (forall p f s, exists r tail,
        handle_prediction (Some p) f s =
          (r, {| cache := cache s;
                 trace := trace s
                          ++ Ev_predict_proba (Some p) (input_df f) :: tail |})).
Proof.
  split.
  - intros f. eexists. repeat split; reflexivity.
  - intros p f s. rewrite handle_prediction_run. cbv zeta.
    destruct (score_result p (input_df f)) as [x|e];
      [ | destruct (isinstance_Exception e)]; do 2 eexists; reflexivity.
Qed.

(** ** The missing artifact *)

(** Widgets within their bounds return a form. *)
Lemma form_in_range (ui : Widgets) (s : State) :
  widgets_in_range ui = true -> exists f, form ui s = (Returns f, s).
Proof.
  unfold widgets_in_range. intros H.
  repeat match type of H with
         | (_ && _)%bool = true =>
             let H' := fresh "H" in
             apply andb_prop in H; destruct H as [H H']
         end.
  repeat match goal with
         | H : (_ <? _)%nat = true |- _ => apply Nat.ltb_lt in H
         | H : (0 <=? _)%Z = true |- _ => apply Z.leb_le in H
         end.
  unfold form, bind.
  repeat match goal with
         | |- context [selectbox ?o ?i ?s] =>
             rewrite (selectbox_run o i s);
             destruct (nth_error o i) eqn:?;
             [ | exfalso;
                 match goal with
                 | E : nth_error _ _ = None |- _ =>
                     apply nth_error_None in E; simpl in E; lia
                 end ]
         | |- context [number_input ?m ?v ?s] =>
             rewrite (number_input_run m v s)
         end; cbv beta iota.
  eexists. reflexivity.
Qed.

Lemma pages_None_in_range (ui : Widgets) :
  widgets_in_range ui = true -> fst (pages None ui empty_state) = Returns tt.
Proof.
  intros H. destruct (form_in_range ui empty_state H) as [f Hf].
  unfold widgets_in_range in H.
  assert (Hp : (ui_page ui < 3)%nat).
  { apply Nat.ltb_lt. destruct (ui_page ui <? 3)%nat; [reflexivity | ].
    discriminate H. }
  unfold pages, radio, bind at 1. rewrite selectbox_run.
  destruct (ui_page ui) as [|[|[|n]]]; try lia; try reflexivity.
  cbn [nth_error]. unfold page_prediction, bind, button, ret.
  rewrite Hf. now rewrite andb_false_r.
Qed.

(** From the cached failure a run shows the notice again and does nothing
    else, whatever the file system and the widgets hold. *)
Lemma run_cached_failure (disk : result Pipeline) (ui : Widgets)
    (els : list element) :
  run disk ui (Some (None, els)) =
  (fst (pages None ui empty_state), Some (None, els), map Ev_element els).
Proof. now rewrite run_cached, pages_None_adds_nothing, app_nil_r. Qed.

(** C4. When the model file is absent, [load_model] returns the absent
    handle as a value, not as an exception, under the notice that the model
    was not found, and the script goes on to the pages without scoring
    (with widgets in range, on the prediction page and on the about page,
    the run ends normally). The failure is what the
    cache holds from then on: every later run of the process, whatever the
    file system holds by then and whether the button is pressed or not,
    shows the same notice and nothing else, with no read of the file and no
    scoring call, and leaves the cached failure in place. *)
Theorem missing_artifact_is_cached_and_disables_scoring :
  forall (msg : string) (ui : Widgets),
    let absent := Raises (Exn FileNotFoundError msg) in
    let notice := El_error model_not_found_msg in
    load_model absent empty_state =
      (Returns None,
       {| cache := Some (None, [notice]);
          trace := [Ev_joblib_load; Ev_element notice] |})
    /\ run absent ui None =
         (fst (pages None ui empty_state), Some (None, [notice]),
          [Ev_joblib_load; Ev_element notice])
    /\ (widgets_in_range ui = true -> ui_page ui <> 1%nat ->
        fst (fst (run absent ui None)) = Returns tt)
    /\ forall runs : list (result Pipeline * Widgets),
         snd (session runs (Some (None, [notice]))) = Some (None, [notice])
         /\ Forall (fun out =>
                      snd out = [Ev_element notice]
                      /\ existsb is_file_read (snd out) = false
                      /\ existsb is_scoring_call (snd out) = false)
                   (fst (session runs (Some (None, [notice])))).
Proof.
  intros msg ui absent notice.
  assert (R : run absent ui None =
              (fst (pages None ui empty_state), Some (None, [notice]),
               [Ev_joblib_load; Ev_element notice])).
  { rewrite run_eq. unfold absent. rewrite load_model_miss. cbn.
    now rewrite pages_None_adds_nothing. }
  split; [reflexivity | ]. split; [exact R | ]. split.
  - intros Hui _. rewrite R. cbn [fst]. now apply pages_None_in_range.
  - induction runs as [|[disk ui'] rest [IHc IHo]]; [split; [reflexivity | constructor] | ].
    cbn [session]. rewrite run_cached_failure.
    destruct (session rest (Some (None, [notice]))) as [outs c2].
    split; [exact IHc | ]. constructor; [ | exact IHo].
    cbn [snd]. splits; reflexivity.
Qed.

(** The same on a concrete session: the file is absent at first and present
    later, the button is pressed each time. *)
Example missing_artifact_session :
  session [ (file_absent, default_widgets true);
            (Returns fixture_pipeline, default_widgets true);
            (Returns fixture_pipeline, default_widgets true) ] None
  = ([ (Returns tt, [Ev_joblib_load; Ev_element (El_error model_not_found_msg)]);
       (Returns tt, [Ev_element (El_error model_not_found_msg)]);
       (Returns tt, [Ev_element (El_error model_not_found_msg)]) ],
     Some (None, [El_error model_not_found_msg])).
Proof. reflexivity. Qed.

(** ** Failures of the pipeline *)

(** C5, as stated, fails: the handler puts [str(e)] into the message. When
    the pipeline raises with the text "could not convert string to float:
    'abc'", that text is shown to the user after the prefix. *)
Lemma pipeline_exception_text_is_shown :
  handle_prediction (Some failing_pipeline) default_form empty_state
  = (Returns tt,
     {| cache := None;
        trace :=
          [ Ev_predict_proba (Some failing_pipeline) (input_df default_form);
            Ev_element
              (El_error "Erreur lors de la prédiction : could not convert string to float: 'abc'") ] |})
  /\ includes "could not convert string to float: 'abc'"
       "Erreur lors de la prédiction : could not convert string to float: 'abc'"
     = true.
Proof. split; reflexivity. Qed.

(** C5, amended. When the pipeline raises an exception during inference,
    the handler catches it and shows one error message, the fixed prefix
    followed by the text of the exception and nothing more (no traceback);
    the block ends normally and shows no other element. *)
Theorem pipeline_failure_shows_prefixed_exception_text :
  forall (p : Pipeline) (f : Form) (e : exn) (s : State),
    predict_proba p (input_df f) = Raises e ->
    isinstance_Exception e = true ->
    handle_prediction (Some p) f s =
      (Returns tt,
       {| cache := cache s;
          trace := trace s
                   ++ [ Ev_predict_proba (Some p) (input_df f);
                        Ev_element
                          (El_error ("Erreur lors de la prédiction : " ++ str e)) ] |}).
Proof.
  intros p f e s Hp He.
  rewrite handle_prediction_run. cbv zeta.
  unfold score_result. rewrite Hp, He. reflexivity.
Qed.

Lemma pipeline_failure_shows_prefixed_exception_text_witness :
  handle_prediction (Some failing_pipeline) default_form empty_state =
    (Returns tt,
     {| cache := cache empty_state;
        trace := trace empty_state
                 ++ [ Ev_predict_proba (Some failing_pipeline)
                        (input_df default_form);
                      Ev_element
                        (El_error
                           ("Erreur lors de la prédiction : "
                            ++ str (Exn OtherException
                                      "could not convert string to float: 'abc'"))) ] |}).
Proof.
  apply (pipeline_failure_shows_prefixed_exception_text
           failing_pipeline default_form
           (Exn OtherException "could not convert string to float: 'abc'")
           empty_state); reflexivity.
Defined.

(** ** Atomic failure *)

Lemma elements_of_app (a b : list event) :
  elements_of (a ++ b) = (elements_of a ++ elements_of b)%list.
Proof.
  induction a as [|ev a IH]; [reflexivity | ].
  destruct ev; simpl; now rewrite IH.
Qed.

Lemma elements_of_map (els : list element) :
  elements_of (map Ev_element els) = els.
Proof. induction els as [|el els IH]; simpl; [reflexivity | now rewrite IH]. Qed.

Lemma results_shown_app (a b : list event) :
  results_shown (a ++ b) = (results_shown a ++ results_shown b)%list.
Proof. unfold results_shown. now rewrite elements_of_app, filter_app. Qed.

Lemma results_shown_prediction (x : float) :
  results_shown (map Ev_element (prediction_elements x)) = prediction_elements x.
Proof.
  unfold results_shown. rewrite elements_of_map. unfold prediction_elements.
  destruct (Decision_eqb (decision x) Approved);
    destruct (recommendations (decision x) x); reflexivity.
Qed.

(** What the loader adds to the trace holds no scoring call and, from a
    cache entry the process can hold, no element of a prediction. *)
Lemma load_model_trace (disk : result Pipeline) (c : option CacheEntry) :
  let t1 := trace (snd (load_model disk {| cache := c; trace := [] |})) in
  Forall (fun ev => is_scoring_call ev = false) t1
  /\ (cache_wf c -> results_shown t1 = []).
Proof.
  destruct c as [[v els]|].
  - rewrite load_model_hit. cbn [snd trace app]. split.
    + apply Forall_forall. intros ev Hev. apply in_map_iff in Hev.
      destruct Hev as (el & <- & _). reflexivity.
    + unfold cache_wf. destruct v; intros ->; reflexivity.
  - rewrite load_model_miss.
    destruct disk as [p|e]; [ | destruct (isinstance_FileNotFoundError e)];
      cbn [snd trace app]; split; try reflexivity; repeat constructor.
Qed.

(** The trace of a run: what the loader added, then what the pages added. *)
Lemma run_trace (disk : result Pipeline) (ui : Widgets) (c : option CacheEntry) :
  exists pre tail model,
    snd (run disk ui c) = (pre ++ tail)%list
    /\ pre = trace (snd (load_model disk {| cache := c; trace := [] |}))
    /\ pages_tail model ui tail
    /\ (tail <> [] ->
        fst (load_model disk {| cache := c; trace := [] |}) = Returns model).
Proof.
  rewrite run_eq.
  destruct (load_model disk {| cache := c; trace := [] |}) as [[model|e] s1].
  - exists (trace s1), (trace (snd (pages model ui empty_state))), model.
    repeat split; try reflexivity. apply pages_adds.
  - exists (trace s1), [], None. cbn [snd]. rewrite app_nil_r.
    repeat split; try reflexivity; [apply tail_nothing | intros H; now elim H].
Qed.

(** The scoring calls of a run, as the pages make them: on the handle the
    loader returned and on the table of a form the widgets returned. When
    the call fails, the run shows no more of a prediction than the loader
    did. *)
Lemma run_scoring_call (disk : result Pipeline) (ui : Widgets)
    (c : option CacheEntry) (m : option Pipeline) (df : DataFrame) :
  In (Ev_predict_proba m df) (snd (run disk ui c)) ->
  exists p f,
    m = Some p /\ df = input_df f /\ fst (form ui empty_state) = Returns f
    /\ fst (load_model disk {| cache := c; trace := [] |}) = Returns (Some p)
    /\ (forall e, score_result p df = Raises e ->
          results_shown (snd (run disk ui c)) =
          results_shown
            (trace (snd (load_model disk {| cache := c; trace := [] |})))).
Proof.
  destruct (run_trace disk ui c) as (pre & tail & model & -> & Hpre & Htail & Hm).
  destruct (load_model_trace disk c) as [Hns _]. rewrite <- Hpre in *.
  intros Hin. apply in_app_or in Hin. destruct Hin as [Hin|Hin].
  { rewrite Forall_forall in Hns. specialize (Hns _ Hin). discriminate. }
  assert (Hne : tail <> []) by (intros ->; contradiction).
  specialize (Hm Hne). clear Hne.
  inversion Htail as [E | p f x Hmod Hf Hx E | p f e Hmod Hf He E];
    subst tail; [contradiction | | ].
  - destruct Hin as [[= <- <-]|Hin].
    + exists p, f. subst model. splits; trivial.
      intros e He. rewrite Hx in He. discriminate.
    + apply in_map_iff in Hin. destruct Hin as (el & [=] & _).
  - assert (Hhead : m = Some p /\ df = input_df f).
    { destruct Hin as [[= <- <-]|Hin]; [now split | ].
      destruct (isinstance_Exception e); [ | contradiction].
      destruct Hin as [[=]|[]]. }
    destruct Hhead as [-> ->]. exists p, f. subst model. splits; trivial.
    intros e' _. rewrite results_shown_app.
    destruct (isinstance_Exception e); cbn; now rewrite app_nil_r.
Qed.

(** What a run shows of a prediction: nothing, or the whole result of a
    scoring call that returned. *)
Lemma run_results_all_or_nothing (disk : result Pipeline) (ui : Widgets)
    (c : option CacheEntry) :
  cache_wf c ->
  results_shown (snd (run disk ui c)) = []
  \/ exists p f x,
       In (Ev_predict_proba (Some p) (input_df f)) (snd (run disk ui c))
       /\ score_result p (input_df f) = Returns x
       /\ results_shown (snd (run disk ui c)) = prediction_elements x.
Proof.
  intros Hc.
  destruct (run_trace disk ui c) as (pre & tail & model & -> & Hpre & Htail & _).
  destruct (load_model_trace disk c) as [_ Hnr]. specialize (Hnr Hc).
  rewrite <- Hpre in Hnr. rewrite results_shown_app, Hnr. cbn [app].
  inversion Htail as [E | p f x Hmod Hf Hx E | p f e Hmod Hf He E]; subst tail.
  - now left.
  - right. exists p, f, x. splits; trivial.
    + apply in_or_app. right. now left.
    + apply (results_shown_prediction x).
  - left. destruct (isinstance_Exception e); reflexivity.
Qed.

(** C6. A prediction fails as a whole, in every state a process can reach
    (after any history of runs from the empty cache). Whatever the
    prediction does, the cache entry after the run is the one the loader
    left, and an entry that was there before the run is the entry after it,
    so the next run finds the same handle. When the scoring call of a run
    fails, the run shows no element of a prediction: no gauge, no verdict,
    no metric, no recommendation. In general a run shows either no such
    element or all the elements of one scoring call that returned. *)
Theorem prediction_fails_atomically :
  forall (history : list (result Pipeline * Widgets))
         (disk : result Pipeline) (ui : Widgets),
    let c := snd (session history None) in
    let out := run disk ui c in
    snd (fst out) =
      cache (snd (load_model disk {| cache := c; trace := [] |}))
    /\ (c <> None -> snd (fst out) = c)
    /\ (forall p df e,
          In (Ev_predict_proba (Some p) df) (snd out) ->
          score_result p df = Raises e ->
          results_shown (snd out) = [])
    /\ (results_shown (snd out) = []
        \/ exists p f x,
             In (Ev_predict_proba (Some p) (input_df f)) (snd out)
             /\ score_result p (input_df f) = Returns x
             /\ results_shown (snd out) = prediction_elements x).
Proof.
  intros history disk ui c out.
  assert (Hc : cache_wf c) by (apply cache_wf_session; exact I).
  subst out. clearbody c. splits.
  - rewrite run_eq.
    destruct (load_model disk {| cache := c; trace := [] |}) as [[model|e] s1];
      reflexivity.
  - destruct c as [[v els]|]; [intros _ | intros H; now elim H].
    now rewrite run_cached.
  - intros p df e Hin He.
    destruct (run_scoring_call disk ui c _ _ Hin)
      as (p' & f & [= <-] & -> & _ & _ & Hfail).
    rewrite (Hfail e He). now apply load_model_trace.
  - now apply run_results_all_or_nothing.
Qed.

(** A failed attempt followed by another in the same process: the first
    shows the error message alone, the second the whole prediction, on the
    handle loaded once. *)
Example failed_attempt_then_success :
  session [ (Returns picky_pipeline,
             {| ui_page := 0; ui_gender := 1; ui_education := 0;
                ui_married := 0; ui_self_employed := 0; ui_dependents := 0;
                ui_property_area := 0; ui_applicant_income := 5000;
                ui_coapplicant_income := 0; ui_loan_amount := 100;
                ui_loan_amount_term := 0; ui_credit_history := 0;
                ui_predict_btn := true |});
            (file_absent, default_widgets true) ] None
  = ([ (Returns tt,
        [ Ev_joblib_load;
          Ev_predict_proba (Some picky_pipeline)
            (input_df {| gender := "Female"; married := "Yes";
                         dependents := "0"; education := "Graduate";
                         self_employed := "Yes"; applicant_income := 5000;
                         coapplicant_income := 0; loan_amount := 100;
                         loan_amount_term := 360;
                         credit_history := 1.0%float;
                         property_area := "Urban" |});
          Ev_element
            (El_error "Erreur lors de la prédiction : Found unknown categories") ]);
       (Returns tt,
        Ev_predict_proba (Some picky_pipeline) (input_df default_form)
          :: map Ev_element (prediction_elements 0.82)) ],
     Some (Some picky_pipeline, [])).
Proof. reflexivity. Qed.

(** ** The score *)

(** C7. On the table of a form, when the pipeline returns and keeps the
    promise of [predict_proba] (a vector per row, entries between 0 and 1),
    the score is the entry of the first row at index 1, which is the
    probability of the positive class, and it lies between 0 and 1. *)
Theorem score_is_positive_class_probability_in_unit_interval :
  forall (p : Pipeline) (f : Form) (rows : list (list float)) (s : State),
    predict_proba p (input_df f) = Returns rows ->
    proba_contract (input_df f) rows ->
    exists row x,
      nth_error rows 0 = Some row
      /\ nth_error row 1 = Some x
      /\ prob (Some p) (input_df f) s =
           (Returns x,
            {| cache := cache s;
               trace := trace s ++ [Ev_predict_proba (Some p) (input_df f)] |})
      /\ (0 <=? x)%float = true
      /\ (x <=? 1)%float = true.
Proof.
  intros p f rows s Hp [Hlen Hrows].
  destruct rows as [|row rows]; [discriminate Hlen | ].
  apply Forall_inv in Hrows. destruct Hrows as [Hrow Hunit].
  destruct row as [|x0 [|x row]]; simpl in Hrow; try lia.
  apply Forall_inv_tail, Forall_inv in Hunit.
  apply andb_prop in Hunit. destruct Hunit as [H0 H1].
  exists (x0 :: x :: row), x. splits; trivial.
  rewrite prob_run. unfold score_result. now rewrite Hp.
Qed.

Lemma score_is_positive_class_probability_in_unit_interval_witness :
  exists row x,
    nth_error [[0.18; 0.82]%float] 0 = Some row
    /\ nth_error row 1 = Some x
    /\ prob (Some fixture_pipeline) (input_df default_form) empty_state =
         (Returns x,
          {| cache := cache empty_state;
             trace := trace empty_state
                      ++ [Ev_predict_proba (Some fixture_pipeline)
                            (input_df default_form)] |})
    /\ (0 <=? x)%float = true
    /\ (x <=? 1)%float = true.
Proof.
  apply (score_is_positive_class_probability_in_unit_interval
           fixture_pipeline default_form [[0.18; 0.82]%float] empty_state).
  - reflexivity.
  - split; [reflexivity | ].
    repeat constructor.
Defined.

(** ** The records that reach the pipeline *)

(** Widgets within their bounds return the form they select. *)
Lemma form_selected (ui : Widgets) (s : State) :
  widgets_in_range ui = true -> form ui s = (Returns (selected_form ui), s).
Proof.
  unfold widgets_in_range. intros H.
  repeat match type of H with
         | (_ && _)%bool = true =>
             let H' := fresh "H" in
             apply andb_prop in H; destruct H as [H H']
         end.
  repeat match goal with
         | H : (_ <? _)%nat = true |- _ => apply Nat.ltb_lt in H
         | H : (0 <=? _)%Z = true |- _ => apply Z.leb_le in H
         end.
  unfold form, bind, selected_form.
  rewrite (selectbox_run gender_options),
    (nth_error_nth' gender_options "") by assumption.
  rewrite (selectbox_run education_options),
    (nth_error_nth' education_options "") by assumption.
  rewrite (selectbox_run married_options),
    (nth_error_nth' married_options "") by assumption.
  rewrite (selectbox_run self_employed_options),
    (nth_error_nth' self_employed_options "") by assumption.
  rewrite (selectbox_run dependents_options),
    (nth_error_nth' dependents_options "") by assumption.
  rewrite (selectbox_run property_area_options),
    (nth_error_nth' property_area_options "") by assumption.
  rewrite !number_input_run.
  rewrite (selectbox_run loan_amount_term_options),
    (nth_error_nth' loan_amount_term_options 0%Z) by assumption.
  rewrite (selectbox_run credit_history_options),
    (nth_error_nth' credit_history_options 0%float) by assumption.
  reflexivity.
Qed.

(** Widgets within their bounds select a form that lies in its domains. *)
Lemma selected_form_valid (ui : Widgets) :
  widgets_in_range ui = true -> Form_valid (selected_form ui) = true.
Proof.
  unfold widgets_in_range. intros H.
  repeat match type of H with
         | (_ && _)%bool = true =>
             let H' := fresh "H" in
             apply andb_prop in H; destruct H as [H H']
         end.
  repeat match goal with
         | H : (_ <? _)%nat = true |- _ => apply Nat.ltb_lt in H
         end.
  unfold Form_valid, selected_form;
    cbn [gender married dependents education self_employed applicant_income
         coapplicant_income loan_amount loan_amount_term credit_history
         property_area].
  repeat (apply andb_true_intro; split); try assumption;
    match goal with
    | Hi : (?i < _)%nat |- context [nth ?i _ _] =>
        revert Hi; generalize i; intros n Hi;
        do 8 (try (destruct n as [|n];
                   [first [reflexivity | exfalso; lia] | ]));
        exfalso; lia
    end.
Qed.

(** C8, as stated, fails: the handler submits what the widgets hand it,
    and a number input hands on a number below zero when that is the state
    it was sent. The run on the default widgets with an income of -1 calls
    the pipeline on a record whose income is outside its domain. *)
Lemma out_of_bounds_state_is_scored :
  widgets_in_range negative_income_widgets = false
  /\ In (Ev_predict_proba (Some fixture_pipeline)
          (input_df negative_income_form))
       (snd (run (Returns fixture_pipeline) negative_income_widgets None))
  /\ In ("ApplicantIncome", CInt (-1)) (hd [] (input_df negative_income_form))
  /\ fully_populated (hd [] (input_df negative_income_form)) = false.
Proof.
  splits; try reflexivity.
  - simpl. right. left. reflexivity.
  - simpl. auto 10.
Qed.

(** C8, amended. Every table on which a run calls the pipeline has one
    row, and the row holds exactly the eleven fields of the data model,
    each once and none of them [None]: no partial record is submitted. When
    the states of the widgets are within the bounds of their widgets, every
    value lies in the domain of its field; the handler itself does not
    check it. *)
Theorem scored_records_hold_eleven_fields_in_domain_within_bounds :
  forall (disk : result Pipeline) (ui : Widgets) (c : option CacheEntry)
         (m : option Pipeline) (df : DataFrame),
    In (Ev_predict_proba m df) (snd (run disk ui c)) ->
    exists row,
      df = [row]
      /\ map fst row =
           [ "Gender"; "Married"; "Dependents"; "Education"; "Self_Employed";
             "ApplicantIncome"; "CoapplicantIncome"; "LoanAmount";
             "Loan_Amount_Term"; "Credit_History"; "Property_Area" ]
      /\ Forall (fun kv => snd kv <> CNone) row
      /\ (widgets_in_range ui = true -> fully_populated row = true).
Proof.
  intros disk ui c m df Hin.
  destruct (run_scoring_call disk ui c m df Hin) as (p & f & _ & -> & Hf & _).
  eexists. split; [reflexivity | ]. split; [reflexivity | ].
  split; [repeat constructor; discriminate | ].
  intros Hr. rewrite (form_selected ui empty_state Hr) in Hf.
  cbn [fst] in Hf. injection Hf as <-.
  destruct (input_df_fully_populated _ (selected_form_valid ui Hr))
    as (row & Hrow & Hfull & _).
  unfold input_df in Hrow. injection Hrow as <-. exact Hfull.
Qed.

Lemma scored_records_hold_eleven_fields_in_domain_within_bounds_witness :
  exists row,
    input_df default_form = [row]
    /\ map fst row =
         [ "Gender"; "Married"; "Dependents"; "Education"; "Self_Employed";
           "ApplicantIncome"; "CoapplicantIncome"; "LoanAmount";
           "Loan_Amount_Term"; "Credit_History"; "Property_Area" ]
    /\ Forall (fun kv => snd kv <> CNone) row
    /\ (widgets_in_range (default_widgets true) = true ->
        fully_populated row = true).
Proof.
  apply (scored_records_hold_eleven_fields_in_domain_within_bounds
           (Returns fixture_pipeline) (default_widgets true) None
           (Some fixture_pipeline) (input_df default_form)).
  simpl. right. left. reflexivity.
Defined.

(** A row that lacks a field, or holds [None], is not fully populated. *)
Example partial_rows_are_not_fully_populated :
  fully_populated (tl (hd [] (input_df default_form))) = false
  /\ fully_populated
       (("Gender", CNone) :: tl (hd [] (input_df default_form))) = false.
Proof. split; reflexivity. Qed.

(** ** The guard on the handle *)

(** C10. No run evaluates [predict_proba] on an absent handle. Every
    scoring call of a run is made on a pipeline, the one the loader
    returned; and when the loader returned no handle the run makes no
    scoring call at all, whether the button is pressed or not. *)
Theorem predict_proba_never_called_without_handle :
  forall (disk : result Pipeline) (ui : Widgets) (c : option CacheEntry),
    (forall df, ~ In (Ev_predict_proba None df) (snd (run disk ui c)))
    /\ (forall m df,
          In (Ev_predict_proba m df) (snd (run disk ui c)) ->
          exists p,
            m = Some p
            /\ fst (load_model disk {| cache := c; trace := [] |})
               = Returns (Some p))
    /\ (fst (load_model disk {| cache := c; trace := [] |}) = Returns None ->
        forall m df, ~ In (Ev_predict_proba m df) (snd (run disk ui c))).
Proof.
  intros disk ui c. splits.
  - intros df Hin.
    destruct (run_scoring_call disk ui c _ _ Hin) as (p & f & [=] & _).
  - intros m df Hin.
    destruct (run_scoring_call disk ui c _ _ Hin) as (p & f & -> & _ & _ & Hl & _).
    now exists p.
  - intros Hnone m df Hin.
    destruct (run_scoring_call disk ui c _ _ Hin) as (p & f & _ & _ & _ & Hl & _).
    rewrite Hnone in Hl. discriminate.
Qed.

(** Without the guard the handler would evaluate [predict_proba] on the
    absent handle and show the attribute error; with it, a press of the
    button on the missing model shows the notice alone. *)
Example guard_keeps_None_from_scoring :
  snd (handle_prediction None default_form empty_state)
  = {| cache := None;
       trace :=
         [ Ev_predict_proba None (input_df default_form);
           Ev_element
             (El_error "Erreur lors de la prédiction : 'NoneType' object has no attribute 'predict_proba'") ] |}
  /\ run file_absent (default_widgets true) None
     = (Returns tt, Some (None, [El_error model_not_found_msg]),
        [Ev_joblib_load; Ev_element (El_error model_not_found_msg)]).
Proof. split; reflexivity. Qed.

(** * Further properties of the script *)

(** ** The cached loader over a session *)

Lemma session_cons (disk : result Pipeline) (ui : Widgets)
    (rest : list (result Pipeline * Widgets)) (c : option CacheEntry) :
  session ((disk, ui) :: rest) c =
  (let '(r, c1, tr) := run disk ui c in
   let '(outs, c2) := session rest c1 in
   ((r, tr) :: outs, c2)).
Proof. reflexivity. Qed.

(** What the pages add to a trace is scoring calls and elements, never a
    read of the model file. *)
Lemma pages_never_read_the_file (v : option Pipeline) (ui : Widgets) :
  existsb is_file_read (trace (snd (pages v ui empty_state))) = false.
Proof.
  generalize (pages_adds v ui). intros H.
  inversion H as [E | p f x Hmod Hf Hx E | p f e Hmod Hf He E].
  - reflexivity.
  - cbn [existsb is_file_read orb]. unfold prediction_elements.
    destruct (Decision_eqb (decision x) Approved);
      destruct (recommendations (decision x) x); reflexivity.
  - destruct (isinstance_Exception e); reflexivity.
Qed.

Lemma existsb_map_element (test : event -> bool) (els : list element) :
  (forall el, test (Ev_element el) = false) ->
  existsb test (map Ev_element els) = false.
Proof.
  intros Ht. induction els as [|el els IH]; [reflexivity | ].
  simpl. now rewrite Ht, IH.
Qed.

(** A session from a cache that holds an entry keeps the entry and reads
    nothing. *)
Lemma session_cached (entry : CacheEntry)
    (runs : list (result Pipeline * Widgets)) :
  snd (session runs (Some entry)) = Some entry
  /\ Forall (fun out => existsb is_file_read (snd out) = false)
            (fst (session runs (Some entry))).
Proof.
  destruct entry as [v els].
  induction runs as [|[disk ui] rest [IHc IHo]];
    [split; [reflexivity | constructor] | ].
  rewrite session_cons, run_cached. unfold CacheEntry in *. revert IHc IHo.
  destruct (session rest (Some (v, els))) as [outs c2]. intros IHc IHo.
  split; [exact IHc | ]. constructor; [ | exact IHo].
  cbn [snd]. rewrite existsb_app, pages_never_read_the_file, orb_false_r.
  now apply existsb_map_element.
Qed.

(** X1. The entry of the cache is written once. From an empty cache a run
    reads the model file exactly once. Once the cache holds an entry,
    whatever it is, no run of any later session reads the file and the
    entry is still the same at the end of the session. *)
Theorem cache_entry_is_written_once :
  (forall (disk : result Pipeline) (ui : Widgets),
      count_events is_file_read (snd (run disk ui None)) = 1%nat)
  /\ (forall (entry : CacheEntry) (runs : list (result Pipeline * Widgets)),
        snd (session runs (Some entry)) = Some entry
        /\ Forall (fun out => existsb is_file_read (snd out) = false)
                  (fst (session runs (Some entry)))).
Proof.
  split.
  - intros disk ui. rewrite run_eq, load_model_miss. unfold count_events.
    assert (P : forall v, filter is_file_read
                            (trace (snd (pages v ui empty_state))) = []).
    { intros v. generalize (pages_never_read_the_file v ui).
      generalize (trace (snd (pages v ui empty_state))).
      induction l as [|ev l IH]; [reflexivity | ].
      simpl. destruct (is_file_read ev); [discriminate | exact IH]. }
    destruct disk as [p|e]; [ | destruct (isinstance_FileNotFoundError e)];
      cbn [snd trace app filter is_file_read List.length]; rewrite ?P; reflexivity.
  - exact session_cached.
Qed.

(** X2. An exception of [joblib.load] other than [FileNotFoundError] is not
    caught. While the file keeps failing that way, every run of the session
    ends with the exception of its read, after that read and nothing else:
    no page is reached, whichever is selected, and nothing is cached, so
    the next run reads the file again. *)
Theorem other_load_errors_abort_every_run :
  forall runs : list (result Pipeline * Widgets),
    Forall (fun r => exists e, fst r = Raises e
                               /\ isinstance_FileNotFoundError e = false) runs ->
    snd (session runs None) = None
    /\ Forall2 (fun r out => exists e, fst r = Raises e
                                       /\ out = (Raises e, [Ev_joblib_load]))
               runs (fst (session runs None)).
Proof.
  induction runs as [|[disk ui] rest IH]; intros H.
  - split; [reflexivity | constructor].
  - apply Forall_cons_iff in H. destruct H as [(e & Hd & He) Hrest].
    cbn [fst] in Hd. subst disk. specialize (IH Hrest). destruct IH as [IHc IHo].
    rewrite session_cons, run_eq, load_model_miss, He.
    cbn [cache trace app]. revert IHc IHo.
    destruct (session rest None) as [outs c2]. intros IHc IHo.
    split; [exact IHc | ]. constructor; [ | exact IHo].
    exists e. split; reflexivity.
Qed.

Lemma other_load_errors_abort_every_run_witness :
  snd (session [ (file_corrupt, default_widgets true);
                 (file_corrupt, default_widgets false) ] None) = None
  /\ Forall2 (fun r out => exists e, fst r = Raises e
                                     /\ out = (Raises e, [Ev_joblib_load]))
             [ (file_corrupt, default_widgets true);
               (file_corrupt, default_widgets false) ]
             (fst (session [ (file_corrupt, default_widgets true);
                             (file_corrupt, default_widgets false) ] None)).
Proof.
  apply (other_load_errors_abort_every_run
           [ (file_corrupt, default_widgets true);
             (file_corrupt, default_widgets false) ]).
  repeat constructor; eexists; split; reflexivity.
Defined.

(** The scoring calls the pages make are made on the handle they were given. *)
Lemma pages_score_on_their_handle (v : option Pipeline) (ui : Widgets)
    (m : option Pipeline) (df : DataFrame) :
  In (Ev_predict_proba m df) (trace (snd (pages v ui empty_state))) ->
  m = v /\ exists f, df = input_df f.
Proof.
  generalize (pages_adds v ui). intros H Hin.
  inversion H as [E | p f x Hmod Hf Hx E | p f e Hmod Hf He E];
    rewrite <- E in Hin.
  - contradiction.
  - apply in_inv in Hin. destruct Hin as [Heq|Hin].
    + injection Heq as <- <-. split; [now symmetry | now exists f].
    + change (In (Ev_predict_proba m df)
                 (map Ev_element (prediction_elements x))) in Hin.
      apply in_map_iff in Hin. destruct Hin as (el & [=] & _).
  - apply in_inv in Hin. destruct Hin as [Heq|Hin].
    + injection Heq as <- <-. split; [now symmetry | now exists f].
    + destruct (isinstance_Exception e); [ | contradiction].
      destruct Hin as [[=]|[]].
Qed.

(** X3. The model is never loaded again. After a pipeline has been cached,
    every scoring call of every later run is made on that pipeline, also
    when the file holds another pipeline by then or is gone. *)
Theorem cached_pipeline_serves_every_later_run :
  forall (p : Pipeline) (els : list element)
         (runs : list (result Pipeline * Widgets)),
    Forall (fun out => forall m df,
                In (Ev_predict_proba m df) (snd out) -> m = Some p)
           (fst (session runs (Some (Some p, els)))).
Proof.
  intros p els runs.
  induction runs as [|[disk ui] rest IH]; [constructor | ].
  rewrite session_cons, run_cached. unfold CacheEntry in *. revert IH.
  destruct (session rest (Some (Some p, els))) as [outs c2]. intros IH.
  constructor; [ | exact IH].
  cbn [snd]. intros m df Hin. apply in_app_or in Hin. destruct Hin as [Hin|Hin].
  - apply in_map_iff in Hin. destruct Hin as (el & [=] & _).
  - now apply pages_score_on_their_handle in Hin.
Qed.

(** A session in which the file is replaced after the first run: the second
    run still answers with the pipeline loaded first. *)
Example replaced_file_is_not_reloaded :
  fst (session [ (Returns fixture_pipeline, default_widgets false);
                 (Returns low_pipeline, default_widgets true) ] None)
  = [ (Returns tt, [Ev_joblib_load]);
      (Returns tt,
       Ev_predict_proba (Some fixture_pipeline) (input_df default_form)
         :: map Ev_element (prediction_elements 0.82)) ].
Proof. reflexivity. Qed.

(** X13. The first conclusive read decides the cache for the whole
    session. After any session from the empty cache, the cache holds the
    outcome of the first read that returned a pipeline or found no file:
    that pipeline, or the failure with its notice. Reads that raised
    another exception before it leave no mark, and no later read changes
    the entry. *)
Theorem session_cache_is_first_conclusive_read :
  forall runs : list (result Pipeline * Widgets),
    snd (session runs None) = first_conclusive_read runs.
Proof.
  induction runs as [|[disk ui] rest IH]; [reflexivity | ].
  rewrite session_cons, run_eq, load_model_miss.
  destruct disk as [p|e]; [ | destruct (isinstance_FileNotFoundError e) eqn:He];
    cbn [cache trace first_conclusive_read]; rewrite ?He.
  - pose proof (session_cached (Some p, []) rest) as [Hc _]. revert Hc.
    unfold CacheEntry in *.
    destruct (session rest (Some (Some p, []))) as [outs c2]. trivial.
  - pose proof (session_cached (None, [El_error model_not_found_msg]) rest)
      as [Hc _]. revert Hc. unfold CacheEntry in *.
    destruct (session rest (Some (None, [El_error model_not_found_msg])))
      as [outs c2]. trivial.
  - revert IH. destruct (session rest None) as [outs c2]. trivial.
Qed.

(** A corrupt file, then no file, then a good file: the failure found by
    the second run is what the cache holds. *)
Example cache_after_mixed_reads :
  snd (session [ (file_corrupt, default_widgets true);
                 (file_absent, default_widgets true);
                 (Returns fixture_pipeline, default_widgets true) ] None)
  = Some (None, [El_error model_not_found_msg]).
Proof. reflexivity. Qed.

(** ** The button, the page and the selected form *)

Lemma existsb_false_of_Forall {A} (test : A -> bool) (l : list A) :
  Forall (fun a => test a = false) l -> existsb test l = false.
Proof.
  induction 1 as [|a l Ha _ IH]; [reflexivity | ].
  simpl. now rewrite Ha, IH.
Qed.

(** Off the prediction page, or with the button not pressed, the pages add
    nothing to the trace. *)
Lemma pages_idle (v : option Pipeline) (ui : Widgets) :
  ui_predict_btn ui = false \/ ui_page ui <> 0%nat ->
  trace (snd (pages v ui empty_state)) = [].
Proof.
  intros H. unfold pages, radio, bind at 1. rewrite selectbox_run.
  destruct (ui_page ui) as [|[|[|n]]] eqn:Hp; try reflexivity.
  - destruct H as [Hb|Hn]; [ | now elim Hn].
    cbn [nth_error]. unfold page_prediction, bind.
    destruct (form_run ui empty_state) as (r & ->).
    destruct r as [f|e]; [ | reflexivity].
    unfold button, ret. now rewrite Hb.
  - cbn [nth_error]. now destruct n.
Qed.

(** X4. Nothing is scored unless the button is pressed on the prediction
    page: with the button not pressed, or on another page, the trace of
    the run is what the loader added, and it holds no scoring call. *)
Theorem no_scoring_without_button_on_prediction_page :
  forall (disk : result Pipeline) (ui : Widgets) (c : option CacheEntry),
    ui_predict_btn ui = false \/ ui_page ui <> 0%nat ->
    snd (run disk ui c) =
      trace (snd (load_model disk {| cache := c; trace := [] |}))
    /\ existsb is_scoring_call (snd (run disk ui c)) = false.
Proof.
  intros disk ui c H.
  assert (E : snd (run disk ui c) =
              trace (snd (load_model disk {| cache := c; trace := [] |}))).
  { rewrite run_eq.
    destruct (load_model disk {| cache := c; trace := [] |}) as [[model|e] s1];
      [ | reflexivity].
    cbn [snd]. now rewrite (pages_idle model ui H), app_nil_r. }
  split; [exact E | ]. rewrite E.
  apply existsb_false_of_Forall. apply load_model_trace.
Qed.

Lemma no_scoring_without_button_on_prediction_page_witness :
  snd (run (Returns fixture_pipeline) (default_widgets false) None) =
    trace (snd (load_model (Returns fixture_pipeline)
                  {| cache := None; trace := [] |}))
  /\ existsb is_scoring_call
       (snd (run (Returns fixture_pipeline) (default_widgets false) None))
     = false.
Proof.
  apply (no_scoring_without_button_on_prediction_page
           (Returns fixture_pipeline) (default_widgets false) None).
  left. reflexivity.
Defined.

(** A press of the button on the prediction page, with widgets in range and
    a pipeline at hand: the pages are the handler on the selected form. *)
Lemma pages_pressed (p : Pipeline) (ui : Widgets) :
  widgets_in_range ui = true -> ui_page ui = 0%nat ->
  ui_predict_btn ui = true ->
  pages (Some p) ui empty_state =
  handle_prediction (Some p) (selected_form ui) empty_state.
Proof.
  intros Hr Hp Hb.
  unfold pages, radio, bind at 1. rewrite selectbox_run, Hp. cbn [nth_error].
  unfold page_prediction, bind at 1. rewrite (form_selected ui _ Hr).
  unfold button, bind at 1, ret. now rewrite Hb.
Qed.

Lemma run_pressed (p : Pipeline) (els : list element)
    (disk : result Pipeline) (ui : Widgets) :
  widgets_in_range ui = true -> ui_page ui = 0%nat ->
  ui_predict_btn ui = true ->
  run disk ui (Some (Some p, els)) =
  (fst (handle_prediction (Some p) (selected_form ui) empty_state),
   Some (Some p, els),
   (map Ev_element els
    ++ trace (snd (handle_prediction (Some p) (selected_form ui) empty_state)))%list).
Proof.
  intros Hr Hp Hb. rewrite run_cached. now rewrite (pages_pressed p ui Hr Hp Hb).
Qed.

Lemma filter_nil_of_existsb {A} (test : A -> bool) (l : list A) :
  existsb test l = false -> filter test l = [].
Proof.
  induction l as [|a l IH]; [reflexivity | ].
  simpl. destruct (test a); [discriminate | exact IH].
Qed.

(** What the handler adds after its scoring call holds no scoring call. *)
Lemma handle_prediction_scores_once (p : Pipeline) (f : Form) :
  exists tail,
    trace (snd (handle_prediction (Some p) f empty_state)) =
      Ev_predict_proba (Some p) (input_df f) :: tail
    /\ existsb is_scoring_call tail = false.
Proof.
  rewrite handle_prediction_run. cbv zeta.
  destruct (score_result p (input_df f)) as [x|e];
    [ | destruct (isinstance_Exception e)];
    eexists; (split; [reflexivity | ]); try reflexivity.
  apply existsb_map_element. reflexivity.
Qed.

(** X5. A press of the button scores exactly once, and on the form the
    widgets select. With the widgets in range, on the prediction page and
    with the button pressed, a run with a cached pipeline makes one call of
    [predict_proba], on the table whose values are the options at the
    selected indices and the numbers entered; whatever the call does, the
    run makes no second call. The run that loads the pipeline does the same
    after its read of the file. *)
Theorem press_scores_selected_form_exactly_once :
  forall (p : Pipeline) (els : list element) (disk : result Pipeline)
         (ui : Widgets),
    widgets_in_range ui = true -> ui_page ui = 0%nat ->
    ui_predict_btn ui = true ->
    exists r tail,
      run disk ui (Some (Some p, els)) =
        (r, Some (Some p, els),
         (map Ev_element els
          ++ Ev_predict_proba (Some p) (input_df (selected_form ui)) :: tail)%list)
      /\ run (Returns p) ui None =
           (r, Some (Some p, []),
            Ev_joblib_load
              :: Ev_predict_proba (Some p) (input_df (selected_form ui)) :: tail)
      /\ existsb is_scoring_call tail = false
      /\ count_events is_scoring_call (snd (run disk ui (Some (Some p, els))))
         = 1%nat.
Proof.
  intros p els disk ui Hr Hp Hb.
  destruct (handle_prediction_scores_once p (selected_form ui))
    as (tail & Ht & Hn).
  exists (fst (handle_prediction (Some p) (selected_form ui) empty_state)), tail.
  rewrite (run_pressed p els disk ui Hr Hp Hb), Ht.
  splits; trivial.
  - rewrite run_eq, load_model_miss, (pages_pressed p ui Hr Hp Hb), Ht.
    reflexivity.
  - cbn [snd]. unfold count_events. rewrite filter_app.
    rewrite (filter_nil_of_existsb is_scoring_call (map Ev_element els))
      by (apply existsb_map_element; reflexivity).
    cbn [app filter is_scoring_call List.length].
    now rewrite (filter_nil_of_existsb _ _ Hn).
Qed.

Lemma press_scores_selected_form_exactly_once_witness :
  exists r tail,
    run file_absent (default_widgets true) (Some (Some fixture_pipeline, [])) =
      (r, Some (Some fixture_pipeline, []),
       (map Ev_element []
        ++ Ev_predict_proba (Some fixture_pipeline)
             (input_df (selected_form (default_widgets true))) :: tail)%list)
    /\ run (Returns fixture_pipeline) (default_widgets true) None =
         (r, Some (Some fixture_pipeline, []),
          Ev_joblib_load
            :: Ev_predict_proba (Some fixture_pipeline)
                 (input_df (selected_form (default_widgets true))) :: tail)
    /\ existsb is_scoring_call tail = false
    /\ count_events is_scoring_call
         (snd (run file_absent (default_widgets true)
                 (Some (Some fixture_pipeline, [])))) = 1%nat.
Proof.
  apply (press_scores_selected_form_exactly_once
           fixture_pipeline [] file_absent (default_widgets true));
    reflexivity.
Defined.

(** ** Failures the handler does not show, and results it shows as they are *)

(** X6. The handler catches [Exception] only. When the pipeline raises an
    exception outside [Exception] (an interrupt), a press of the button
    ends the run with that exception: after the scoring call nothing is
    shown, neither a result nor an error message, and the cached pipeline
    stays. *)
Theorem exception_outside_Exception_ends_the_run :
  forall (p : Pipeline) (els : list element) (disk : result Pipeline)
         (ui : Widgets) (e : exn),
    widgets_in_range ui = true -> ui_page ui = 0%nat ->
    ui_predict_btn ui = true ->
    predict_proba p (input_df (selected_form ui)) = Raises e ->
    isinstance_Exception e = false ->
    run disk ui (Some (Some p, els)) =
      (Raises e, Some (Some p, els),
       (map Ev_element els
        ++ [Ev_predict_proba (Some p) (input_df (selected_form ui))])%list).
Proof.
  intros p els disk ui e Hr Hp Hb He Hc.
  rewrite (run_pressed p els disk ui Hr Hp Hb), handle_prediction_run. cbv zeta.
  unfold score_result. now rewrite He, Hc.
Qed.

Lemma exception_outside_Exception_ends_the_run_witness :
  run file_absent (default_widgets true) (Some (Some interrupted_pipeline, [])) =
    (Raises (Exn BaseExceptionOnly "KeyboardInterrupt"),
     Some (Some interrupted_pipeline, []),
     (map Ev_element []
      ++ [Ev_predict_proba (Some interrupted_pipeline)
            (input_df (selected_form (default_widgets true)))])%list).
Proof.
  apply (exception_outside_Exception_ends_the_run
           interrupted_pipeline [] file_absent (default_widgets true)
           (Exn BaseExceptionOnly "KeyboardInterrupt"));
    reflexivity.
Defined.

(** X7. A pipeline whose answer has no entry at [[0][1]] (no row, or a
    first row with fewer than two entries, as a pipeline fitted on one
    class gives) does not end the run: the index error is caught, the press
    shows one error message and no result, and the run ends normally. *)
Theorem short_probability_vector_is_a_handled_error :
  forall (p : Pipeline) (els : list element) (disk : result Pipeline)
         (ui : Widgets) (rows : list (list float)),
    widgets_in_range ui = true -> ui_page ui = 0%nat ->
    ui_predict_btn ui = true ->
    predict_proba p (input_df (selected_form ui)) = Returns rows ->
    (List.length (hd [] rows) < 2)%nat ->
    exists e,
      class_of e = IndexError
      /\ run disk ui (Some (Some p, els)) =
           (Returns tt, Some (Some p, els),
            (map Ev_element els
             ++ [ Ev_predict_proba (Some p) (input_df (selected_form ui));
                  Ev_element (El_error (prediction_error_prefix ++ str e)) ])%list).
Proof.
  intros p els disk ui rows Hr Hp Hb Hrows Hlen.
  exists (Exn IndexError "index out of range"). split; [reflexivity | ].
  rewrite (run_pressed p els disk ui Hr Hp Hb), handle_prediction_run. cbv zeta.
  assert (E : score_result p (input_df (selected_form ui)) =
              Raises (Exn IndexError "index out of range")).
  { unfold score_result. rewrite Hrows.
    destruct rows as [|[|x0 [|x1 row]] rows]; try reflexivity.
    simpl in Hlen. lia. }
  rewrite E. reflexivity.
Qed.

Lemma short_probability_vector_is_a_handled_error_witness :
  exists e,
    class_of e = IndexError
    /\ run file_absent (default_widgets true)
         (Some (Some single_class_pipeline, [])) =
         (Returns tt, Some (Some single_class_pipeline, []),
          (map Ev_element []
           ++ [ Ev_predict_proba (Some single_class_pipeline)
                  (input_df (selected_form (default_widgets true)));
                Ev_element (El_error (prediction_error_prefix ++ str e)) ])%list).
Proof.
  apply (short_probability_vector_is_a_handled_error
           single_class_pipeline [] file_absent (default_widgets true)
           [[1.0]%float]); try reflexivity.
  simpl. lia.
Defined.

Lemma f64_nan_compares_false (x y : float) :
  is_nan x = true -> (y <=? x)%float = false /\ (x <? y)%float = false.
Proof.
  unfold is_nan. rewrite eqb_spec, leb_spec, ltb_spec.
  unfold SFeqb, SFleb, SFltb.
  destruct (Prim2SF x) as [s|s| |s m e].
  - discriminate.
  - destruct s; discriminate.
  - intros _. destruct (Prim2SF y); split; reflexivity.
  - simpl. rewrite Z.compare_refl, Pos.compare_cont_refl.
    destruct s; discriminate.
Qed.

(** X8. A NaN from the pipeline is shown as a rejection. When the score is
    NaN, the press raises nothing and shows no error: the gauge and the
    metric carry the NaN, the verdict is the rejected one, and no
    recommendation comes with it. *)
Theorem nan_probability_is_shown_as_rejection_without_advice :
  forall (p : Pipeline) (els : list element) (disk : result Pipeline)
         (ui : Widgets) (x : float),
    widgets_in_range ui = true -> ui_page ui = 0%nat ->
    ui_predict_btn ui = true ->
    score_result p (input_df (selected_form ui)) = Returns x ->
    is_nan x = true ->
    run disk ui (Some (Some p, els)) =
      (Returns tt, Some (Some p, els),
       (map Ev_element els
        ++ [ Ev_predict_proba (Some p) (input_df (selected_form ui));
             Ev_element (El_gauge (x * 100)%float);
             Ev_element (El_h2 "rejected" "❌ Prêt Non Approuvé");
             Ev_element (El_metric "Probabilité d'approbation"
                           (PercentOneDecimal x));
             Ev_element (El_metric "Seuil de décision" (MetricText "50%")) ])%list).
Proof.
  intros p els disk ui x Hr Hp Hb Hx Hnan.
  rewrite (run_pressed p els disk ui Hr Hp Hb), handle_prediction_run. cbv zeta.
  rewrite Hx. unfold prediction_elements, recommendations, decision.
  destruct (f64_nan_compares_false x 0.5 Hnan) as [-> ->].
  reflexivity.
Qed.

Lemma nan_probability_is_shown_as_rejection_without_advice_witness :
  run file_absent (default_widgets true) (Some (Some nan_pipeline, [])) =
    (Returns tt, Some (Some nan_pipeline, []),
     (map Ev_element []
      ++ [ Ev_predict_proba (Some nan_pipeline)
             (input_df (selected_form (default_widgets true)));
           Ev_element (El_gauge (nan * 100)%float);
           Ev_element (El_h2 "rejected" "❌ Prêt Non Approuvé");
           Ev_element (El_metric "Probabilité d'approbation"
                         (PercentOneDecimal nan));
           Ev_element (El_metric "Seuil de décision" (MetricText "50%")) ])%list).
Proof.
  apply (nan_probability_is_shown_as_rejection_without_advice
           nan_pipeline [] file_absent (default_widgets true) nan);
    reflexivity.
Defined.

(** ** The input table as a dict *)

(** X9. The row of the input table loses nothing. Its eleven keys are
    distinct, so the dict literal overwrites no item and is the list of its
    items as written; every item is read back under its key; and two forms
    that give the same table are the same form. *)
Theorem input_df_row_keeps_every_value :
  (forall f, exists row,
      input_df f = [row]
      /\ NoDup (map fst row)
      /\ dict_literal row = row
      /\ Forall (fun kv => dict_get (fst kv) row = Returns (snd kv)) row)
  /\ (forall f1 f2, input_df f1 = input_df f2 -> f1 = f2).
Proof.
  split.
  - intros f. eexists. split; [reflexivity | ]. splits.
    + repeat constructor; simpl; intuition discriminate.
    + reflexivity.
    + repeat constructor.
  - intros [g1 m1 d1 e1 s1 a1 c1 l1 t1 h1 r1] [g2 m2 d2 e2 s2 a2 c2 l2 t2 h2 r2] H.
    unfold input_df in H. cbn in H. injection H as -> -> -> -> -> -> -> -> -> -> ->.
    reflexivity.
Qed.

(** A key written twice keeps one item, with the value written last. *)
Example dict_literal_overwrites :
  dict_literal [("Gender", CStr "Male"); ("Married", CStr "Yes");
                ("Gender", CStr "Female")]
  = [("Gender", CStr "Female"); ("Married", CStr "Yes")].
Proof. reflexivity. Qed.

(** ** The documentation page *)

(** X10. The table of the documentation page agrees with the input table.
    Its four columns have one length, so the table is built, with eleven
    rows; its Variable column is, in order, the columns of the input table
    of every form; and a variable documented as categorical is submitted as
    a string, any other as a number. *)
Theorem documentation_table_matches_input_table :
  exists table,
    DataFrame_of_columns variables_data = Returns table
    /\ List.length table = 11%nat
    /\ forall f, exists row,
         input_df f = [row]
         /\ map (text_at "Variable") table = map fst row
         /\ Forall2 (fun doc kv => type_agrees doc (snd kv) = true) table row.
Proof.
  eexists. split; [reflexivity | ]. split; [reflexivity | ].
  intros f. eexists. split; [reflexivity | ]. split; [reflexivity | ].
  repeat constructor.
Qed.


(** X12. The example chart does not contradict the table: of two features
    of the chart, the one with the stronger documented impact has the
    greater example importance, and the importances are written in strictly
    decreasing order. *)
Theorem example_importances_follow_documented_impact :
  exists table bars,
    DataFrame_of_columns variables_data = Returns table
    /\ px_bar importance features = Returns bars
    /\ (forall b1 b2, In b1 bars -> In b2 bars ->
          (impact_rank (documented_impact table (snd b2))
           < impact_rank (documented_impact table (snd b1)))%nat ->
          (fst b2 <? fst b1)%float = true)
    /\ (forall i x y, nth_error importance i = Some x ->
                      nth_error importance (S i) = Some y ->
                      (y <? x)%float = true).
Proof.
  do 2 eexists. split; [reflexivity | ]. split; [reflexivity | ]. split.
  - intros b1 b2 H1 H2 Hlt. simpl in H1, H2.
    repeat match goal with
           | H : _ \/ _ |- _ => destruct H as [<-|H]
           | H : False |- _ => contradiction
           end;
      first [ reflexivity | exfalso; vm_compute in Hlt; lia ].
  - intros i x y Hx Hy.
    do 8 (destruct i as [|i];
          [ simpl in Hx, Hy;
            first [ discriminate
                  | injection Hx as <-; injection Hy as <-; reflexivity ] | ]).
    destruct i; discriminate.
Qed.
